(** * usb-list.py: the property-list walk of the USB interface resolver

    A shallow embedding of [src/usb-list.py]: the values that [plistlib]
    produces, the Python primitives the script applies to them (dict [get],
    truthiness, [==], [len], iteration), the two walks
    [find_tty_by_interface_name] and [extract_usb_info], and the dispatch of
    [main].  Printing and exceptions are kept as the script has them: a run
    yields the lines printed so far together with either a returned value or
    the exception that ended it. *)

From Stdlib Require Import ZArith List Ascii String.
From Stdlib Require Import SpecFloat.
From stdpp Require Import base option list strings gmap.

Local Open Scope string_scope.
Local Open Scope Z_scope.
Local Open Scope list_scope.
Local Set Warnings "-register-all".

(** ** Property-list values *)

(** What [plistlib.load]/[plistlib.loads] can hand to the script: [dict]
    (string keys), [list], [str], [int], [float], [bool], [bytes],
    [datetime.datetime], [plistlib.UID], and [None].  A [str] is a
    [string], one [ascii] per character. *)
Inductive PLNode : Type :=
  | PDict (d : gmap string PLNode)
  | PList (l : list PLNode)
  | PStr (s : string)
  | PInt (n : Z)
  | PReal (f : spec_float)
  | PBool (b : bool)
  | PData (bs : list Z)
  | PDate (t : Z)
  | PUid (n : Z)
  | PNone.

(** ** Runs: printed lines, and a value or an exception *)

Inductive exn : Type :=
  | TypeError (msg : string).

Inductive Result (A : Type) : Type :=
  | Return (a : A)
  | Raise (e : exn).
Arguments Return {A} a.
Arguments Raise {A} e.

(** A printed line is the f-string it came from: literal text and
    interpolated fields.  A field [{v}] is kept as the value [v]; its text is
    [str(v)], which is [v] itself when [v] is a [str].  Turning a field into
    text is taken to succeed: the limits of the interpreter that can make it
    fail (the recursion limit, for a value nested deeper than it; the digit
    limit of an [int]) lie outside the model, and an exception in a run is
    one that the script's own operations raise. *)
Inductive Frag : Type :=
  | Lit (s : string)
  | Fmt (v : PLNode).

Definition Line : Type := list Frag.

Definition Run (A : Type) : Type := (list Line * Result A)%type.

Definition ret {A} (a : A) : Run A := ([], Return a).
Definition raise {A} (e : exn) : Run A := ([], Raise e).
Definition print (l : Line) : Run unit := ([l], Return tt).
Definition lift {A} (r : Result A) : Run A := ([], r).

Definition bind {A B} (m : Run A) (k : A -> Run B) : Run B :=
  match m with
  | (out, Return a) => let '(out', r) := k a in (out ++ out', r)
  | (out, Raise e) => (out, Raise e)
  end.

Notation "x <- m ;; k" := (bind m (fun x => k))
  (at level 100, m at next level, right associativity).
Notation "m ;; k" := (bind m (fun _ => k))
  (at level 100, right associativity).

(** ** Python primitives on property-list values *)

Definition nl : string := String (ascii_of_nat 10) EmptyString.

(** [d.get(key, default)] *)
Definition dict_get (d : gmap string PLNode) (key : string) (default : PLNode)
  : PLNode :=
  match d !! key with
  | Some v => v
  | None => default
  end.

(** [isinstance(v, dict)] and [isinstance(v, list)] *)
Definition is_dict (v : PLNode) : bool :=
  match v with PDict _ => true | _ => false end.

Definition is_list (v : PLNode) : bool :=
  match v with PList _ => true | _ => false end.

(** [bool(v)]: empty containers and strings, zero, [False] and [None] are
    false; a [datetime] and a [UID] are always true; a NaN is true. *)
Definition py_truthy (v : PLNode) : bool :=
  match v with
  | PDict d => negb (Nat.eqb (size d) 0)
  | PList l => match l with [] => false | _ => true end
  | PStr s => match s with EmptyString => false | _ => true end
  | PInt n => negb (n =? 0)
  | PReal f => match f with S754_zero _ => false | _ => true end
  | PBool b => b
  | PData bs => match bs with [] => false | _ => true end
  | PDate _ => true
  | PUid _ => true
  | PNone => false
  end.

(** [v == 10]: an [int] ten or a [float] of value ten ([True == 1], so no
    [bool] equals ten). *)
Definition real_is_ten (f : spec_float) : bool :=
  match f with
  | S754_finite false m e =>
      if 0 <=? e then Z.pos m * 2 ^ e =? 10
      else Z.pos m =? 10 * 2 ^ (- e)
  | _ => false
  end.

Definition py_eq_10 (v : PLNode) : bool :=
  match v with
  | PInt n => n =? 10
  | PReal f => real_is_ten f
  | _ => false
  end.

(** [v == s] for a [str] [s]: only an equal [str] is equal to it. *)
Definition py_eq_str (v : PLNode) (s : string) : bool :=
  match v with
  | PStr s' => bool_decide (s' = s)
  | _ => false
  end.

(** [type(v)] as an f-string field prints it. *)
Definition py_type (v : PLNode) : string :=
  match v with
  | PDict _ => "<class 'dict'>"
  | PList _ => "<class 'list'>"
  | PStr _ => "<class 'str'>"
  | PInt _ => "<class 'int'>"
  | PReal _ => "<class 'float'>"
  | PBool _ => "<class 'bool'>"
  | PData _ => "<class 'bytes'>"
  | PDate _ => "<class 'datetime.datetime'>"
  | PUid _ => "<class 'plistlib.UID'>"
  | PNone => "<class 'NoneType'>"
  end.

Definition chars (s : string) : list PLNode :=
  (fun c => PStr (String c EmptyString)) <$> list_ascii_of_string s.

(** [iter(v)], as a [for] loop consumes it: the elements of a [list], the
    keys of a [dict], the characters of a [str], the bytes of a [bytes];
    anything else raises [TypeError].  The keys of a [dict] come in the order
    of the map, not in insertion order; the loops of the script only test
    each of them with [isinstance(_, dict)], which no key passes. *)
Definition py_iter (v : PLNode) : Result (list PLNode) :=
  match v with
  | PList l => Return l
  | PDict d => Return (PStr <$> (map_to_list d).*1)
  | PStr s => Return (chars s)
  | PData bs => Return (PInt <$> bs)
  | PInt _ => Raise (TypeError "'int' object is not iterable")
  | PReal _ => Raise (TypeError "'float' object is not iterable")
  | PBool _ => Raise (TypeError "'bool' object is not iterable")
  | PDate _ => Raise (TypeError "'datetime.datetime' object is not iterable")
  | PUid _ => Raise (TypeError "'UID' object is not iterable")
  | PNone => Raise (TypeError "'NoneType' object is not iterable")
  end.

(** [len(v)] *)
Definition py_len (v : PLNode) : Result nat :=
  match v with
  | PList l => Return (length l)
  | PDict d => Return (size d)
  | PStr s => Return (String.length s)
  | PData bs => Return (length bs)
  | PInt _ => Raise (TypeError "object of type 'int' has no len()")
  | PReal _ => Raise (TypeError "object of type 'float' has no len()")
  | PBool _ => Raise (TypeError "object of type 'bool' has no len()")
  | PDate _ =>
      Raise (TypeError "object of type 'datetime.datetime' has no len()")
  | PUid _ => Raise (TypeError "object of type 'UID' has no len()")
  | PNone => Raise (TypeError "object of type 'NoneType' has no len()")
  end.

Definition int_of_nat (n : nat) : PLNode := PInt (Z.of_nat n).

(** ** [find_tty_by_interface_name] *)

(** The three nested [for] loops, innermost first.  A loop yields [Some t]
    when the function returns [t] from inside it and [None] when the loop
    runs to its end. *)

(** The loop over [grandchildren]. *)
Fixpoint scan_grandchildren (grandchildren : list PLNode) : option PLNode :=
  match grandchildren with
  | [] => None
  | gc :: rest =>
      match gc with
      | PDict g =>
          let tty_device := dict_get g "IOTTYDevice" PNone in
          if py_truthy tty_device then Some tty_device
          else scan_grandchildren rest
      | _ => scan_grandchildren rest
      end
  end.

(** The loop over [children]. *)
Fixpoint scan_children (children : list PLNode) : Result (option PLNode) :=
  match children with
  | [] => Return None
  | child :: rest =>
      match child with
      | PDict c =>
          match py_iter (dict_get c "IORegistryEntryChildren" (PList [])) with
          | Return grandchildren =>
              match scan_grandchildren grandchildren with
              | Some tty_device => Return (Some tty_device)
              | None => scan_children rest
              end
          | Raise e => Raise e
          end
      | _ => scan_children rest
      end
  end.

(** The body of [if interface.get('bInterfaceClass') == 10:]. *)
Definition scan_interface (d : gmap string PLNode) : Result (option PLNode) :=
  match py_iter (dict_get d "IORegistryEntryChildren" (PList [])) with
  | Return children => scan_children children
  | Raise e => Raise e
  end.

(** The loop over [pl]. *)
Fixpoint scan_interfaces (interface_name : string) (pl : list PLNode)
  : Result (option PLNode) :=
  match pl with
  | [] => Return None
  | interface :: rest =>
      match interface with
      | PDict d =>
          let name := dict_get d "IORegistryEntryName" (PStr "") in
          if negb (py_eq_str name interface_name) then
            scan_interfaces interface_name rest
          else if py_eq_10 (dict_get d "bInterfaceClass" PNone) then
            match scan_interface d with
            | Return (Some tty_device) => Return (Some tty_device)
            | Return None => scan_interfaces interface_name rest
            | Raise e => Raise e
            end
          else scan_interfaces interface_name rest
      | _ => scan_interfaces interface_name rest
      end
  end.

Definition find_tty_by_interface_name (pl : PLNode) (interface_name : string)
  : Run PLNode :=
  match pl with
  | PList l =>
      match scan_interfaces interface_name l with
      | Return (Some tty_device) => ret tty_device
      | Return None => ret PNone
      | Raise e => raise e
      end
  | _ =>
      print [Lit "Error: Expected a list at the top level"] ;;
      ret PNone
  end.

(** ** [extract_usb_info] *)

(** The loop over [enumerate(grandchildren)]. *)
Fixpoint dump_grandchildren (k : Z) (grandchildren : list PLNode) : Run unit :=
  match grandchildren with
  | [] => ret tt
  | gc :: rest =>
      match gc with
      | PDict g =>
          let gc_name := dict_get g "IORegistryEntryName" (PStr "Unknown") in
          let tty_device := dict_get g "IOTTYDevice" PNone in
          (if py_truthy tty_device then
             print [Lit "    - #"; Fmt (PInt (k + 1)); Lit ": "; Fmt gc_name;
                    Lit " (TTY: "; Fmt tty_device; Lit ")"]
           else
             print [Lit "    - #"; Fmt (PInt (k + 1)); Lit ": "; Fmt gc_name]) ;;
          dump_grandchildren (k + 1) rest
      | _ => dump_grandchildren (k + 1) rest
      end
  end.

(** The loop over [enumerate(children)]. *)
Fixpoint dump_children (j : Z) (children : list PLNode) : Run unit :=
  match children with
  | [] => ret tt
  | child :: rest =>
      match child with
      | PDict c =>
          let child_name := dict_get c "IORegistryEntryName" (PStr "Unknown") in
          let child_class := dict_get c "IOClass" (PStr "Unknown") in
          print [Lit "  - Child #"; Fmt (PInt (j + 1)); Lit ": "; Fmt child_name;
                 Lit " (Class: "; Fmt child_class; Lit ")"] ;;
          let grandchildren :=
            dict_get c "IORegistryEntryChildren" (PList []) in
          (if py_truthy grandchildren then
             n <- lift (py_len grandchildren) ;;
             print [Lit "    Grandchildren ("; Fmt (int_of_nat n); Lit "):"] ;;
             gcs <- lift (py_iter grandchildren) ;;
             dump_grandchildren 0 gcs
           else ret tt) ;;
          dump_children (j + 1) rest
      | _ =>
          print [Lit "  Child #"; Fmt (PInt (j + 1));
                 Lit " is not a dictionary"] ;;
          dump_children (j + 1) rest
      end
  end.

(** The prints of one interface from ["Name"] to ["Location ID"]. *)
Definition print_fields (interface : gmap string PLNode) : Run unit :=
  let name := dict_get interface "IORegistryEntryName" (PStr "Unknown") in
  print [Lit "Name: "; Fmt name] ;;
  print [Lit "Class: ";
         Fmt (dict_get interface "bInterfaceClass" (PStr "Unknown"))] ;;
  print [Lit "SubClass: ";
         Fmt (dict_get interface "bInterfaceSubClass" (PStr "Unknown"))] ;;
  print [Lit "Protocol: ";
         Fmt (dict_get interface "bInterfaceProtocol" (PStr "Unknown"))] ;;
  match interface !! "USB Product Name" with
  | Some v => print [Lit "Product: "; Fmt v]
  | None => ret tt
  end ;;
  match interface !! "USB Vendor Name" with
  | Some v => print [Lit "Vendor: "; Fmt v]
  | None => ret tt
  end ;;
  match interface !! "USB Serial Number" with
  | Some v => print [Lit "Serial: "; Fmt v]
  | None => ret tt
  end ;;
  print [Lit "Vendor ID: "; Fmt (dict_get interface "idVendor" (PStr "Unknown"))] ;;
  print [Lit "Product ID: ";
         Fmt (dict_get interface "idProduct" (PStr "Unknown"))] ;;
  print [Lit "Location ID: ";
         Fmt (dict_get interface "locationID" (PStr "Unknown"))].

(** The [# Children] part of one interface. *)
Definition print_children (interface : gmap string PLNode) : Run unit :=
  let children := dict_get interface "IORegistryEntryChildren" (PList []) in
  if py_truthy children then
    n <- lift (py_len children) ;;
    print [Lit (nl ++ "  Children ("); Fmt (int_of_nat n); Lit "):"] ;;
    cs <- lift (py_iter children) ;;
    dump_children 0 cs
  else ret tt.

(** The loop over [enumerate(pl)]. *)
Fixpoint dump_interfaces (i : Z) (pl : list PLNode) : Run unit :=
  match pl with
  | [] => ret tt
  | interface :: rest =>
      match interface with
      | PDict d =>
          print [Lit (nl ++ "--- USB Interface #"); Fmt (PInt (i + 1));
                 Lit " ---"] ;;
          print_fields d ;;
          print_children d ;;
          dump_interfaces (i + 1) rest
      | _ =>
          print [Lit (nl ++ "Interface #"); Fmt (PInt (i + 1));
                 Lit " is not a dictionary, it's a ";
                 Lit (py_type interface)] ;;
          dump_interfaces (i + 1) rest
      end
  end.

(** [if interface_name:] on an optional [str]. *)
Definition given (interface_name : option string) : bool :=
  match interface_name with
  | Some s => py_truthy (PStr s)
  | None => false
  end.

(** The branch [if interface_name:]. *)
Definition show_tty (pl : PLNode) (interface_name : string) : Run unit :=
  tty_device <- find_tty_by_interface_name pl interface_name ;;
  if py_truthy tty_device then
    print [Lit "TTY device for "; Fmt (PStr interface_name); Lit ": ";
           Fmt tty_device]
  else
    print [Lit "No TTY device found for interface: ";
           Fmt (PStr interface_name)].

(** The part after [# Otherwise show all interfaces]. *)
Definition show_all (pl : list PLNode) : Run unit :=
  print [Lit "Found "; Fmt (int_of_nat (length pl)); Lit " USB interfaces"] ;;
  dump_interfaces 0 pl.

Definition extract_usb_info (pl : PLNode) (interface_name : option string)
  : Run unit :=
  match pl with
  | PList l =>
      match interface_name with
      | Some n => if py_truthy (PStr n) then show_tty pl n else show_all l
      | None => show_all l
      end
  | _ => print [Lit "Error: Expected a list at the top level"]
  end.

(** ** [main] *)

(** The parsed command line. *)
Record Args : Type := {
  interface_name : option string;
  list_flag : bool;
  debug : option string
}.

(** What the outside world answers: the parsed output of [ioreg], and the
    parsed content of a file, each either a property list or the text of the
    exception that the attempt ended in. *)
Record World : Type := {
  ioreg : PLNode + string;
  file : string -> PLNode + string
}.

Definition get_usb_interfaces (w : World) : Run PLNode :=
  match ioreg w with
  | inl pl => ret pl
  | inr e =>
      print [Lit "Error getting data from ioreg: "; Fmt (PStr e)] ;;
      ret (PList [])
  end.

Definition load_from_file (w : World) (file_path : string) : Run PLNode :=
  match file w file_path with
  | inl pl => ret pl
  | inr e =>
      print [Lit "Error loading file "; Fmt (PStr file_path); Lit ": ";
             Fmt (PStr e)] ;;
      ret (PList [])
  end.

(** The first half of [main]: where the data comes from. *)
Definition acquire (w : World) (args : Args) : Run PLNode :=
  match debug args with
  | Some path =>
      if py_truthy (PStr path) then
        print [Lit "Loading from file: "; Fmt (PStr path)] ;;
        load_from_file w path
      else
        print [Lit "Getting data from ioreg command"] ;;
        get_usb_interfaces w
  | None =>
      print [Lit "Getting data from ioreg command"] ;;
      get_usb_interfaces w
  end.

Definition main (w : World) (args : Args) : Run unit :=
  pl <- acquire w args ;;
  if negb (py_truthy pl) then print [Lit "No data to process"]
  else if list_flag args || negb (given (interface_name args)) then
    extract_usb_info pl None
  else extract_usb_info pl (interface_name args).

(** ** [traverse_plist] *)

(** [traverse_plist] walks a property list of any depth and prints the
    items of a dict in the order of [pl.items()], the insertion order.  Its
    trees are therefore kept with their dicts as lists of items in that
    order.  The function calls itself once per level of nesting; the
    recursion limit of the interpreter, which a tree nested deeper than it
    runs into, lies outside the model, so what is proved of the output
    holds of the lines printed, and nothing is stated about the run coming
    to its end.  [level] counts the nesting from its default 0. *)
Module Traverse.

(** The values that are neither a dict nor a list. *)
Inductive Scalar : Type :=
  | Str (s : string)
  | Int (n : Z)
  | Real (f : spec_float)
  | Bool (b : bool)
  | Data (bs : list Z)
  | Date (t : Z)
  | Uid (n : Z)
  | NoneValue.

Definition value_of (v : Scalar) : PLNode :=
  match v with
  | Str s => PStr s
  | Int n => PInt n
  | Real f => PReal f
  | Bool b => PBool b
  | Data bs => PData bs
  | Date t => PDate t
  | Uid n => PUid n
  | NoneValue => PNone
  end.

Inductive Tree : Type :=
  | Dict (items : list (string * Tree))
  | Items (l : list Tree)
  | Leaf (v : Scalar).

(** ["  " * level] *)
Fixpoint indent (level : nat) : string :=
  match level with
  | O => ""
  | S n => "  " ++ indent n
  end.

Section Loops.
Context {A : Type} (body : A -> Run unit).

(** [for x in xs: body(x)] *)
Fixpoint for_each (xs : list A) : Run unit :=
  match xs with
  | [] => ret tt
  | x :: rest => body x ;; for_each rest
  end.
End Loops.

Section Enumerate.
Context {A : Type} (body : Z -> A -> Run unit).

(** [for i, x in enumerate(xs): body(i, x)], counting from [i]. *)
Fixpoint for_each_indexed (i : Z) (xs : list A) : Run unit :=
  match xs with
  | [] => ret tt
  | x :: rest => body i x ;; for_each_indexed (i + 1) rest
  end.
End Enumerate.

Fixpoint traverse_plist (pl : Tree) (level : nat) : Run unit :=
  let indent := PStr (indent level) in
  match pl with
  | Dict items =>
      for_each
        (fun '(key, value) =>
           match value with
           | Leaf v =>
               print [Fmt indent; Fmt (PStr key); Lit ": "; Fmt (value_of v)]
           | _ =>
               print [Fmt indent; Fmt (PStr key); Lit ":"] ;;
               traverse_plist value (S level)
           end)
        items
  | Items l =>
      print [Fmt indent; Lit "List with "; Fmt (int_of_nat (length l));
             Lit " items:"] ;;
      for_each_indexed
        (fun i item =>
           print [Fmt indent; Lit "Item "; Fmt (PInt (i + 1)); Lit ":"] ;;
           traverse_plist item (S level))
        0 l
  | Leaf v => print [Fmt indent; Fmt (value_of v)]
  end.

(** How far below its own level a tree prints. *)
Fixpoint depth (pl : Tree) : nat :=
  match pl with
  | Dict items =>
      list_max (map (fun '(_, value) =>
                       match value with
                       | Leaf _ => O
                       | _ => S (depth value)
                       end) items)
  | Items l => list_max (map (fun item => S (depth item)) l)
  | Leaf _ => O
  end.

(** The level at which a line is printed: the number of times ["  "] is
    repeated in its indentation, when the line starts with one. *)
Definition printed_at (level : nat) (l : Line) : Prop :=
  exists rest, l = Fmt (PStr (indent level)) :: rest.

(** A line moved [k] levels to the right. *)
Definition deeper (k : nat) (l : Line) : Line :=
  match l with
  | Fmt (PStr s) :: rest => Fmt (PStr (indent k ++ s)) :: rest
  | _ => l
  end.

Definition leaf_item (kv : string * Scalar) : string * Tree :=
  (kv.1, Leaf kv.2).

Definition leaf_line (level : nat) (kv : string * Scalar) : Line :=
  [Fmt (PStr (indent level)); Fmt (PStr kv.1); Lit ": "; Fmt (value_of kv.2)].

(** A run with every line moved [k] levels to the right. *)
Definition shifted {A} (k : nat) (m : Run A) : Run A :=
  (map (deeper k) m.1, m.2).

(** A run that returns and whose lines are all printed at levels between
    [lo] and [hi]. *)
Definition within (lo hi : nat) (m : Run unit) : Prop :=
  m.2 = Return tt /\
  Forall (fun l => exists j, printed_at j l /\ (lo <= j <= hi)%nat) m.1.

End Traverse.

(** ** Vocabulary of the statements *)

Definition expected_list : Line :=
  [Lit "Error: Expected a list at the top level"].

Definition entry_name (d : gmap string PLNode) : PLNode :=
  dict_get d "IORegistryEntryName" (PStr "").

Definition entry_class (d : gmap string PLNode) : PLNode :=
  dict_get d "bInterfaceClass" PNone.

Definition children_of (d : gmap string PLNode) : PLNode :=
  dict_get d "IORegistryEntryChildren" (PList []).

(** A class-10 interface whose name equals the target. *)
Definition qualifies (name : string) (v : PLNode) : bool :=
  match v with
  | PDict d => py_eq_str (entry_name d) name && py_eq_10 (entry_class d)
  | _ => false
  end.

(** A grandchild that carries a non-empty [IOTTYDevice]. *)
Definition carries_tty (v : PLNode) : bool :=
  match v with
  | PDict g => py_truthy (dict_get g "IOTTYDevice" PNone)
  | _ => false
  end.

Definition iterable (v : PLNode) : bool :=
  match py_iter v with Return _ => true | Raise _ => false end.

Definition elems (v : PLNode) : list PLNode :=
  match py_iter v with Return l => l | Raise _ => [] end.

(** Two entries that are the same, or are two dicts whose class is not 10
    and that agree on every key but [IORegistryEntryChildren]. *)
Definition differ_only_in_children (x y : PLNode) : Prop :=
  x = y \/
  exists d1 d2, x = PDict d1 /\ y = PDict d2 /\
    py_eq_10 (entry_class d1) = false /\
    forall k, k <> "IORegistryEntryChildren" -> d1 !! k = d2 !! k.

(** The grandchildren of an interface in depth-first order: the elements
    under each dict child, child after child. *)
Definition grandchildren_of (d : gmap string PLNode) : list PLNode :=
  flat_map (fun c => match c with
                     | PDict cd => elems (children_of cd)
                     | _ => []
                     end)
           (elems (children_of d)).

(** The children and grandchildren of an interface that carry a non-empty
    [IOTTYDevice]. *)
Definition tty_carriers (d : gmap string PLNode) : list PLNode :=
  filter (fun v => carries_tty v = true)
         (elems (children_of d) ++ grandchildren_of d).

(** The [IOTTYDevice] of the first element that carries a non-empty one. *)
Definition first_tty (gcs : list PLNode) : option PLNode :=
  match List.find carries_tty gcs with
  | Some (PDict g) => Some (dict_get g "IOTTYDevice" PNone)
  | _ => None
  end.

(** The sentence of the specification read word for word: look under the
    first class-10 interface whose name equals the target, and there take
    the first grandchild with a non-empty [IOTTYDevice]. *)
Definition tty_under_first_match (name : string) (pl : list PLNode) : PLNode :=
  match List.find (qualifies name) pl with
  | Some (PDict d) => default PNone (first_tty (grandchildren_of d))
  | _ => PNone
  end.

(** A child that the scan passes without a hit and without an error: not a
    dict, or a dict whose [IORegistryEntryChildren] can be iterated and holds
    no element with a non-empty [IOTTYDevice]. *)
Definition barren_child (c : PLNode) : bool :=
  match c with
  | PDict cd =>
      iterable (children_of cd) &&
      forallb (fun g => negb (carries_tty g)) (elems (children_of cd))
  | _ => true
  end.

(** An interface that the scan passes without a hit and without an error:
    one that does not qualify, or one whose [IORegistryEntryChildren] can be
    iterated and holds only barren children. *)
Definition barren (name : string) (i : PLNode) : bool :=
  match i with
  | PDict d =>
      negb (qualifies name i) ||
      iterable (children_of d) && forallb barren_child (elems (children_of d))
  | _ => true
  end.

(** The grandchildren that the scan may reach, in the order it reaches them:
    those of the class-10 interfaces whose name equals the target. *)
Definition reachable (name : string) (pl : list PLNode) : list PLNode :=
  flat_map (fun i => match i with
                     | PDict d => if qualifies name i then grandchildren_of d
                                  else []
                     | _ => []
                     end) pl.

(** Every [IORegistryEntryChildren] that the scan may iterate, under an
    interface or under a dict child of it, can be iterated. *)
Definition iterable_below (name : string) (i : PLNode) : bool :=
  match i with
  | PDict d =>
      negb (qualifies name i) ||
      iterable (children_of d) &&
      forallb (fun c => match c with
                        | PDict cd => iterable (children_of cd)
                        | _ => true
                        end) (elems (children_of d))
  | _ => true
  end.

(** A run that returned [None]. *)
Definition not_found (r : Run PLNode) : bool :=
  match r.2 with
  | Return PNone => true
  | _ => false
  end.

(** A run that ended without an exception. *)
Definition completes {A} (m : Run A) : bool :=
  match m.2 with
  | Return _ => true
  | Raise _ => false
  end.

Definition sized (v : PLNode) : bool :=
  match py_len v with Return _ => true | Raise _ => false end.

(** A child whose grandchildren part the dump gets through: not a dict, or a
    dict whose [IORegistryEntryChildren] is falsy (the part is skipped) or
    has a length. *)
Definition dumpable_child (c : PLNode) : bool :=
  match c with
  | PDict cd => negb (py_truthy (children_of cd)) || sized (children_of cd)
  | _ => true
  end.

(** A top-level element that the dump gets through. *)
Definition dumpable (i : PLNode) : bool :=
  match i with
  | PDict d =>
      negb (py_truthy (children_of d)) ||
      sized (children_of d) &&
      forallb dumpable_child (elems (children_of d))
  | _ => true
  end.

(** The line that opens the report of a top-level element. *)
Definition heading_of (i : Z) (x : PLNode) : Line :=
  match x with
  | PDict _ => [Lit (nl ++ "--- USB Interface #"); Fmt (PInt (i + 1));
                Lit " ---"]
  | _ => [Lit (nl ++ "Interface #"); Fmt (PInt (i + 1));
          Lit " is not a dictionary, it's a "; Lit (py_type x)]
  end.

Fixpoint headings (i : Z) (pl : list PLNode) : list Line :=
  match pl with
  | [] => []
  | x :: rest => heading_of i x :: headings (i + 1) rest
  end.

Definition is_heading (l : Line) : bool :=
  match l with
  | Lit s :: _ =>
      String.eqb s (nl ++ "--- USB Interface #") ||
      String.eqb s (nl ++ "Interface #")
  | _ => false
  end.

(** The line of the dump for a grandchild with a TTY. *)
Definition tty_line (k : Z) (gc_name tty_device : PLNode) : Line :=
  [Lit "    - #"; Fmt (PInt k); Lit ": "; Fmt gc_name;
   Lit " (TTY: "; Fmt tty_device; Lit ")"].

(** The lines of the dump. *)
Definition found_line (n : nat) : Line :=
  [Lit "Found "; Fmt (int_of_nat n); Lit " USB interfaces"].

Definition banner_line (i : Z) : Line :=
  [Lit (nl ++ "--- USB Interface #"); Fmt (PInt (i + 1)); Lit " ---"].

Definition not_a_dict_line (i : Z) (v : PLNode) : Line :=
  [Lit (nl ++ "Interface #"); Fmt (PInt (i + 1));
   Lit " is not a dictionary, it's a "; Lit (py_type v)].

Definition child_not_a_dict_line (j : Z) : Line :=
  [Lit "  Child #"; Fmt (PInt (j + 1)); Lit " is not a dictionary"].

(** The fields printed with a default, and the fields printed only when
    present, each with the label of its line. *)
Definition defaulted_fields : list (string * string) :=
  [("IORegistryEntryName", "Name: "); ("bInterfaceClass", "Class: ");
   ("bInterfaceSubClass", "SubClass: ");
   ("bInterfaceProtocol", "Protocol: "); ("idVendor", "Vendor ID: ");
   ("idProduct", "Product ID: "); ("locationID", "Location ID: ")].

Definition guarded_fields : list (string * string) :=
  [("USB Product Name", "Product: "); ("USB Vendor Name", "Vendor: ");
   ("USB Serial Number", "Serial: ")].

Definition defaulted_line (d : gmap string PLNode) (key label : string)
  : Line :=
  [Lit label; Fmt (dict_get d key (PStr "Unknown"))].

Definition guarded_line (d : gmap string PLNode) (key label : string)
  : list Line :=
  match d !! key with
  | Some v => [[Lit label; Fmt v]]
  | None => []
  end.

Definition no_data_line : Line := [Lit "No data to process"].

(** [main] with [extract_usb_info(pl)] as its last step. *)
Definition full_dump_run (w : World) (args : Args) : Run unit :=
  pl <- acquire w args ;;
  if negb (py_truthy pl) then print no_data_line
  else extract_usb_info pl None.

(** [main] with [extract_usb_info(pl, n)] as its last step. *)
Definition lookup_run (w : World) (args : Args) (n : string) : Run unit :=
  pl <- acquire w args ;;
  if negb (py_truthy pl) then print no_data_line
  else extract_usb_info pl (Some n).

(** A line that only the name-based resolution prints. *)
Definition lookup_line (l : Line) : bool :=
  match l with
  | Lit s :: _ =>
      String.eqb s "TTY device for " ||
      String.eqb s "No TTY device found for interface: "
  | _ => false
  end.

Definition silent_on_lookup {A} (m : Run A) : Prop :=
  Forall (fun l => lookup_line l = false) m.1.

(** The file that [main] loads from, if any: [--debug] with a non-empty
    path. *)
Definition from_file (args : Args) : option string :=
  match debug args with
  | Some path => if py_truthy (PStr path) then Some path else None
  | None => None
  end.

(** What the source that [main] turns to answers. *)
Definition source (w : World) (args : Args) : PLNode + string :=
  match from_file args with
  | Some path => file w path
  | None => ioreg w
  end.

Definition source_line (args : Args) : Line :=
  match from_file args with
  | Some path => [Lit "Loading from file: "; Fmt (PStr path)]
  | None => [Lit "Getting data from ioreg command"]
  end.

Definition source_error_line (args : Args) (e : string) : Line :=
  match from_file args with
  | Some path =>
      [Lit "Error loading file "; Fmt (PStr path); Lit ": "; Fmt (PStr e)]
  | None => [Lit "Error getting data from ioreg: "; Fmt (PStr e)]
  end.

Definition tty_found_line (name : string) (tty_device : PLNode) : Line :=
  [Lit "TTY device for "; Fmt (PStr name); Lit ": "; Fmt tty_device].

Definition tty_not_found_line (name : string) : Line :=
  [Lit "No TTY device found for interface: "; Fmt (PStr name)].

(** Two entries that are the same, or are two dicts that agree on the
    three keys [IORegistryEntryName], [bInterfaceClass] and
    [IORegistryEntryChildren]. *)
Definition same_where_read (x y : PLNode) : Prop :=
  x = y \/
  exists d1 d2, x = PDict d1 /\ y = PDict d2 /\
    d1 !! "IORegistryEntryName" = d2 !! "IORegistryEntryName" /\
    d1 !! "bInterfaceClass" = d2 !! "bInterfaceClass" /\
    d1 !! "IORegistryEntryChildren" = d2 !! "IORegistryEntryChildren".

(** A run without any heading among its lines. *)
Definition no_heading {A} (m : Run A) : Prop :=
  List.filter is_heading m.1 = [].

(** The kinds of value, and the name under which Python prints the type
    of each: [str(type(v))] is ["<class '"], the name, and ["'>"]. *)
Inductive Kind : Type :=
  | KDict | KList | KStr | KInt | KReal | KBool | KData | KDate | KUid
  | KNone.

Definition kind_of (v : PLNode) : Kind :=
  match v with
  | PDict _ => KDict
  | PList _ => KList
  | PStr _ => KStr
  | PInt _ => KInt
  | PReal _ => KReal
  | PBool _ => KBool
  | PData _ => KData
  | PDate _ => KDate
  | PUid _ => KUid
  | PNone => KNone
  end.

Definition kind_name (k : Kind) : string :=
  match k with
  | KDict => "dict"
  | KList => "list"
  | KStr => "str"
  | KInt => "int"
  | KReal => "float"
  | KBool => "bool"
  | KData => "bytes"
  | KDate => "datetime.datetime"
  | KUid => "plistlib.UID"
  | KNone => "NoneType"
  end.

(** The line for a top-level element of kind [k] that is not a dict. *)
Definition type_mismatch_line (i : Z) (k : Kind) : Line :=
  [Lit (nl ++ "Interface #"); Fmt (PInt (i + 1));
   Lit " is not a dictionary, it's a ";
   Lit ("<class '" ++ kind_name k ++ "'>")].

(** The field lines of the report of one interface, in the order printed. *)
Definition field_lines (d : gmap string PLNode) : list Line :=
  [defaulted_line d "IORegistryEntryName" "Name: ";
   defaulted_line d "bInterfaceClass" "Class: ";
   defaulted_line d "bInterfaceSubClass" "SubClass: ";
   defaulted_line d "bInterfaceProtocol" "Protocol: "] ++
  guarded_line d "USB Product Name" "Product: " ++
  guarded_line d "USB Vendor Name" "Vendor: " ++
  guarded_line d "USB Serial Number" "Serial: " ++
  [defaulted_line d "idVendor" "Vendor ID: ";
   defaulted_line d "idProduct" "Product ID: ";
   defaulted_line d "locationID" "Location ID: "].

(** The other lines of the report of one interface. *)
Definition children_line (n : nat) : Line :=
  [Lit (nl ++ "  Children ("); Fmt (int_of_nat n); Lit "):"].

Definition child_line (j : Z) (c : gmap string PLNode) : Line :=
  [Lit "  - Child #"; Fmt (PInt (j + 1)); Lit ": ";
   Fmt (dict_get c "IORegistryEntryName" (PStr "Unknown"));
   Lit " (Class: "; Fmt (dict_get c "IOClass" (PStr "Unknown")); Lit ")"].

Definition grandchildren_line (n : nat) : Line :=
  [Lit "    Grandchildren ("; Fmt (int_of_nat n); Lit "):"].

(** ** Sample property lists *)

Definition dict (kvs : list (string * PLNode)) : PLNode :=
  PDict (list_to_map kvs).

Definition acm0_control : PLNode :=
  dict [("IORegistryEntryName", PStr "STM32 CDC ACM0");
        ("bInterfaceClass", PInt 2)].

Definition acm0_data : PLNode :=
  dict [("IORegistryEntryName", PStr "STM32 CDC ACM0");
        ("bInterfaceClass", PInt 10);
        ("IORegistryEntryChildren",
         PList [dict [("IORegistryEntryChildren",
                       PList [dict [("IOTTYDevice",
                                     PStr "/dev/cu.usbmodem14203")]])]])].

Definition nameless_data : gmap string PLNode :=
  list_to_map
    [("bInterfaceClass", PInt 10);
     ("IORegistryEntryChildren",
      PList [dict [("IORegistryEntryChildren",
                    PList [dict [("IOTTYDevice", PStr "/dev/cu.anon")]])]])].

Definition acm0_control_fields : gmap string PLNode :=
  list_to_map [("IORegistryEntryName", PStr "STM32 CDC ACM0");
               ("bInterfaceClass", PInt 2)].

Definition acm0_control_with_tty : gmap string PLNode :=
  <["IORegistryEntryChildren" :=
      PList [dict [("IORegistryEntryChildren",
                    PList [dict [("IOTTYDevice", PStr "/dev/cu.control")]])]]]>
    acm0_control_fields.

Definition acm0_barren : gmap string PLNode :=
  list_to_map
    [("IORegistryEntryName", PStr "STM32 CDC ACM0");
     ("bInterfaceClass", PInt 10);
     ("IORegistryEntryChildren",
      PList [dict [("IORegistryEntryChildren",
                    PList [dict [("IORegistryEntryName",
                                  PStr "AppleUSBACMData")]])]])].

Definition acm0_odd_children : gmap string PLNode :=
  list_to_map
    [("IORegistryEntryName", PStr "STM32 CDC ACM0");
     ("bInterfaceClass", PInt 10);
     ("IORegistryEntryChildren", PInt 5)].

Definition acm0_odd_grandchildren : gmap string PLNode :=
  list_to_map
    [("IORegistryEntryName", PStr "STM32 CDC ACM0");
     ("bInterfaceClass", PInt 10);
     ("IORegistryEntryChildren",
      PList [dict [("IORegistryEntryChildren", PInt 5)];
             dict [("IORegistryEntryChildren",
                    PList [dict [("IOTTYDevice",
                                  PStr "/dev/cu.usbmodem14203")]])]])].

Definition tty_node (path : string) : gmap string PLNode :=
  list_to_map [("IOTTYDevice", PStr path)].

Definition two_ports : gmap string PLNode :=
  list_to_map
    [("IORegistryEntryChildren",
      PList [PInt 7; dict [("IORegistryEntryName", PStr "idle")];
             PDict (tty_node "/dev/cu.first");
             PDict (tty_node "/dev/cu.second"); PInt 5])].

Definition acm0_two_ports : gmap string PLNode :=
  list_to_map
    [("IORegistryEntryName", PStr "STM32 CDC ACM0");
     ("bInterfaceClass", PInt 10);
     ("IORegistryEntryChildren",
      PList [PStr "stray"; dict [("IOClass", PStr "AppleUSBACMData")];
             PDict two_ports; dict [("IORegistryEntryChildren", PInt 5)]])].

Definition no_fields : gmap string PLNode := ∅.

Definition attached : World :=
  {| ioreg := inl (PList [acm0_control; acm0_data]);
     file := fun _ => inr "[Errno 2] No such file or directory" |}.

Definition list_and_name : Args :=
  {| interface_name := Some "STM32 CDC ACM0";
     list_flag := true;
     debug := None |}.

Definition acm0_data_fields : gmap string PLNode :=
  list_to_map
    [("IORegistryEntryName", PStr "STM32 CDC ACM0");
     ("bInterfaceClass", PInt 10);
     ("IORegistryEntryChildren",
      PList [dict [("IORegistryEntryChildren",
                    PList [dict [("IOTTYDevice",
                                  PStr "/dev/cu.usbmodem14203")]])]])].

Definition nameless_odd : gmap string PLNode :=
  list_to_map [("bInterfaceClass", PInt 10);
               ("IORegistryEntryChildren", PInt 5)].

Definition odd_grandchildren : gmap string PLNode :=
  list_to_map [("IORegistryEntryChildren", PInt 5)].

Definition hub : gmap string PLNode :=
  list_to_map
    [("IORegistryEntryName", PStr "Hub");
     ("IORegistryEntryChildren",
      PList [PDict (tty_node "/dev/cu.first"); PInt 7;
             PDict two_ports])].

Definition nothing_attached : World :=
  {| ioreg := inl (PList []);
     file := fun _ => inr "[Errno 2] No such file or directory" |}.

(** * Properties *)

(** ** Scenarios *)

Example scenario_A :
  find_tty_by_interface_name (PList [acm0_control; acm0_data])
    "STM32 CDC ACM0" = ([], Return (PStr "/dev/cu.usbmodem14203")).
Proof. vm_compute. reflexivity. Qed.

Example scenario_B :
  find_tty_by_interface_name (PList [acm0_control; acm0_data])
    "Nonexistent Device" = ([], Return PNone).
Proof. vm_compute. reflexivity. Qed.

Example scenario_C :
  extract_usb_info (PList [PInt 5; acm0_control]) None =
  ([found_line 2;
    not_a_dict_line 0 (PInt 5);
    banner_line 1;
    [Lit "Name: "; Fmt (PStr "STM32 CDC ACM0")];
    [Lit "Class: "; Fmt (PInt 2)];
    [Lit "SubClass: "; Fmt (PStr "Unknown")];
    [Lit "Protocol: "; Fmt (PStr "Unknown")];
    [Lit "Vendor ID: "; Fmt (PStr "Unknown")];
    [Lit "Product ID: "; Fmt (PStr "Unknown")];
    [Lit "Location ID: "; Fmt (PStr "Unknown")]], Return tt).
Proof. vm_compute. reflexivity. Qed.

Example trailing_blank_does_not_match :
  find_tty_by_interface_name (PList [acm0_control; acm0_data])
    "STM32 CDC ACM0 " = ([], Return PNone).
Proof. vm_compute. reflexivity. Qed.

Example float_ten_is_class_ten :
  py_eq_10 (PReal (S754_finite false 5629499534213120 (-49))) = true.
Proof. reflexivity. Qed.

Example name_lookup_prints_the_tty :
  extract_usb_info (PList [acm0_control; acm0_data]) (Some "STM32 CDC ACM0") =
  ([[Lit "TTY device for "; Fmt (PStr "STM32 CDC ACM0"); Lit ": ";
     Fmt (PStr "/dev/cu.usbmodem14203")]], Return tt).
Proof. vm_compute. reflexivity. Qed.

Example string_children_are_skipped :
  find_tty_by_interface_name
    (PList [dict [("IORegistryEntryName", PStr "STM32 CDC ACM0");
                  ("bInterfaceClass", PInt 10);
                  ("IORegistryEntryChildren", PStr "ab")]])
    "STM32 CDC ACM0" = ([], Return PNone).
Proof. vm_compute. reflexivity. Qed.

(** ** The run monad *)

Lemma bind_ret_l {A B} (a : A) (k : A -> Run B) : (x <- ret a ;; k x) = k a.
Proof. unfold bind, ret. by destruct (k a). Qed.

Lemma bind_ret_r (m : Run unit) : (m ;; ret tt) = m.
Proof.
  destruct m as [out [[]|e]]; unfold bind, ret; [|done].
  by rewrite app_nil_r.
Qed.

Lemma bind_assoc {A B C} (m : Run A) (f : A -> Run B) (g : B -> Run C) :
  (y <- (x <- m ;; f x) ;; g y) = (x <- m ;; y <- f x ;; g y).
Proof.
  destruct m as [out [a|e]]; unfold bind; [|done].
  destruct (f a) as [out1 [b|e1]]; [|done].
  destruct (g b) as [out2 r]. by rewrite app_assoc.
Qed.

Lemma bind_print {B} (l : Line) (k : Run B) :
  (print l ;; k) = (l :: k.1, k.2).
Proof. unfold bind, print. by destruct k. Qed.

(** ** The scan, loop by loop *)

Lemma scan_grandchildren_app l1 l2 :
  scan_grandchildren (l1 ++ l2) =
  match scan_grandchildren l1 with
  | Some t => Some t
  | None => scan_grandchildren l2
  end.
Proof.
  induction l1 as [|g l1 IH]; [done|].
  destruct g; simpl; try done.
  by destruct (py_truthy _).
Qed.

Lemma scan_children_app l1 l2 :
  scan_children (l1 ++ l2) =
  match scan_children l1 with
  | Return None => scan_children l2
  | r => r
  end.
Proof.
  induction l1 as [|c l1 IH]; [done|].
  destruct c; simpl; try done.
  destruct (py_iter _); [|done].
  by destruct (scan_grandchildren _).
Qed.

Lemma scan_interfaces_app name l1 l2 :
  scan_interfaces name (l1 ++ l2) =
  match scan_interfaces name l1 with
  | Return None => scan_interfaces name l2
  | r => r
  end.
Proof.
  induction l1 as [|i l1 IH]; [done|].
  destruct i; simpl; try done.
  destruct (negb _); [done|].
  destruct (py_eq_10 _); [|done].
  by destruct (scan_interface _) as [[t|]|e].
Qed.

(** An interface that does not qualify is passed over. *)
Lemma scan_interfaces_skip name i rest :
  qualifies name i = false ->
  scan_interfaces name (i :: rest) = scan_interfaces name rest.
Proof.
  destruct i; simpl; try done.
  fold (entry_name d) (entry_class d).
  destruct (py_eq_str _ _); simpl; [|done].
  by intros ->.
Qed.

Lemma scan_interfaces_qualifying name d rest :
  qualifies name (PDict d) = true ->
  scan_interfaces name (PDict d :: rest) =
  match scan_interface d with
  | Return None => scan_interfaces name rest
  | r => r
  end.
Proof.
  simpl. fold (entry_name d) (entry_class d).
  intros [-> ->]%andb_true_iff. simpl.
  by destruct (scan_interface d) as [[t|]|e].
Qed.

Lemma py_eq_str_true v s : py_eq_str v s = true <-> v = PStr s.
Proof.
  destruct v; simpl; try (split; [done|discriminate]).
  rewrite bool_decide_eq_true. split; [by intros ->|by intros [= ->]].
Qed.

(** What the scan returns from inside a loop is a truthy value, so never
    [None]. *)
Lemma scan_grandchildren_truthy l t :
  scan_grandchildren l = Some t -> py_truthy t = true.
Proof.
  induction l as [|g l IH]; [done|].
  destruct g; simpl; try done.
  destruct (py_truthy (dict_get _ _ _)) eqn:E; [|done]. by intros [= <-].
Qed.

Lemma scan_children_truthy l t :
  scan_children l = Return (Some t) -> py_truthy t = true.
Proof.
  induction l as [|c l IH]; [done|].
  destruct c; simpl; try done.
  destruct (py_iter _); [|done].
  destruct (scan_grandchildren _) eqn:E; [|done].
  intros [= <-]. by eapply scan_grandchildren_truthy.
Qed.

Lemma scan_interfaces_truthy name l t :
  scan_interfaces name l = Return (Some t) -> py_truthy t = true.
Proof.
  induction l as [|i l IH]; [done|].
  destruct i; simpl; try done.
  destruct (negb _); [done|].
  destruct (py_eq_10 _); [|done].
  destruct (scan_interface _) as [[t'|]|e] eqn:E; try done.
  intros [= <-]. unfold scan_interface in E.
  destruct (py_iter _); [|done]. by eapply scan_children_truthy.
Qed.

Lemma find_tty_not_found name l :
  find_tty_by_interface_name (PList l) name = ([], Return PNone) <->
  scan_interfaces name l = Return None.
Proof.
  unfold find_tty_by_interface_name.
  destruct (scan_interfaces name l) as [[t|]|e] eqn:E; split; try done.
  intros [= ->]. by apply scan_interfaces_truthy in E.
Qed.

(** C4: when the top-level value is not a list, [find_tty_by_interface_name]
    and [extract_usb_info] each print the "expected list" diagnostic and do
    nothing else: the first returns [None], the second returns with no report
    line printed, whatever target name they are given. *)
Theorem not_a_list_is_reported_and_nothing_else
    (pl : PLNode) (name : string) (target : option string) :
  is_list pl = false ->
  find_tty_by_interface_name pl name = ([expected_list], Return PNone) /\
  extract_usb_info pl target = ([expected_list], Return tt).
Proof. by destruct pl. Qed.

Lemma not_a_list_witness :
  find_tty_by_interface_name (PInt 5) "STM32 CDC ACM0"
    = ([expected_list], Return PNone) /\
  extract_usb_info (PInt 5) None = ([expected_list], Return tt).
Proof.
  apply (not_a_list_is_reported_and_nothing_else (PInt 5)). reflexivity.
Defined.

(** C8: name matching is exact equality of strings: when no dict entry's
    name (the value the scan reads for [IORegistryEntryName]) is the target
    string itself, the result is not-found, however close in letter case or
    whitespace a name may be. *)
Theorem no_exact_name_no_tty (pl : list PLNode) (name : string) :
  (forall d, In (PDict d) pl -> entry_name d <> PStr name) ->
  find_tty_by_interface_name (PList pl) name = ([], Return PNone).
Proof.
  intros Hne. unfold find_tty_by_interface_name.
  assert (scan_interfaces name pl = Return None) as ->; [|done].
  induction pl as [|i pl IH]; [done|].
  rewrite scan_interfaces_skip.
  - apply IH. intros d Hd. apply Hne. by right.
  - destruct i; try done. simpl.
    apply andb_false_iff. left. apply not_true_iff_false.
    rewrite py_eq_str_true. apply Hne. by left.
Qed.

Lemma no_exact_name_witness :
  find_tty_by_interface_name (PList [acm0_control; acm0_data])
    "stm32 cdc acm0" = ([], Return PNone).
Proof.
  apply no_exact_name_no_tty.
  intros d [H|[H|[]]]; injection H as <-; vm_compute; discriminate.
Defined.

(** C9, as worded, fails: a nameless class-10 entry is searched only if
    the scan gets to it.  Behind an entry that gives a hit it is never
    looked at: searching the second entry below would raise a [TypeError]
    (it holds the integer 5 under [IORegistryEntryChildren]), yet the call
    returns the TTY found under the first. *)
Lemma unreached_nameless_entry_is_not_searched :
  nameless_odd !! "IORegistryEntryName" = None /\
  py_eq_10 (entry_class nameless_odd) = true /\
  scan_interface nameless_odd =
    Raise (TypeError "'int' object is not iterable") /\
  find_tty_by_interface_name
    (PList [PDict nameless_data; PDict nameless_odd]) "" =
  ([], Return (PStr "/dev/cu.anon")).
Proof. repeat split; reflexivity. Qed.

(** C9, amended: with the empty string as target, a dict entry without the
    [IORegistryEntryName] key passes the name test (the absent name reads as
    the empty string), so when its [bInterfaceClass] is 10 and the scan
    reaches it (no entry before it gave a hit or raised), its descendants
    are searched: the outcome is that of the search under it, and the scan
    goes on only if that search ends without a hit. *)
Theorem missing_name_matches_empty_target
    (pre : list PLNode) (d : gmap string PLNode) (post : list PLNode) :
  d !! "IORegistryEntryName" = None ->
  py_eq_10 (entry_class d) = true ->
  find_tty_by_interface_name (PList pre) "" = ([], Return PNone) ->
  py_eq_str (entry_name d) "" = true /\
  find_tty_by_interface_name (PList (pre ++ PDict d :: post)) "" =
  match scan_interface d with
  | Return (Some tty_device) => ([], Return tty_device)
  | Return None => find_tty_by_interface_name (PList post) ""
  | Raise e => ([], Raise e)
  end.
Proof.
  intros Hname Hclass Hpre.
  assert (py_eq_str (entry_name d) "" = true) as Hmatch.
  { unfold entry_name, dict_get. by rewrite Hname. }
  split; [done|].
  apply find_tty_not_found in Hpre.
  unfold find_tty_by_interface_name.
  rewrite scan_interfaces_app, Hpre, scan_interfaces_qualifying.
  - by destruct (scan_interface d) as [[t|]|e].
  - simpl. by rewrite Hmatch, Hclass.
Qed.

Lemma missing_name_witness :
  py_eq_str (entry_name nameless_data) "" = true /\
  find_tty_by_interface_name
    (PList ([acm0_control] ++ PDict nameless_data :: [acm0_data])) "" =
  ([], Return (PStr "/dev/cu.anon")).
Proof.
  apply (missing_name_matches_empty_target [acm0_control] nameless_data
           [acm0_data]); reflexivity.
Defined.

(** C2: the result never depends on what lies under
    [IORegistryEntryChildren] in an interface whose [bInterfaceClass] is not
    10: two lists that differ only there give the same run (same value, same
    exception if any, nothing printed). *)
Theorem children_of_other_classes_are_ignored
    (pl1 pl2 : list PLNode) (name : string) :
  Forall2 differ_only_in_children pl1 pl2 ->
  find_tty_by_interface_name (PList pl1) name =
  find_tty_by_interface_name (PList pl2) name.
Proof.
  intros H. unfold find_tty_by_interface_name.
  assert (scan_interfaces name pl1 = scan_interfaces name pl2) as ->; [|done].
  induction H as [|x y l1 l2 Hxy _ IH]; [done|].
  destruct Hxy as [->|(d1 & d2 & -> & -> & Hclass & Hsame)].
  - change (y :: l1) with ([y] ++ l1). change (y :: l2) with ([y] ++ l2).
    by rewrite !scan_interfaces_app, IH.
  - rewrite !scan_interfaces_skip; [done| |].
    + simpl. apply andb_false_iff. right.
      unfold entry_class, dict_get in *. by rewrite <- Hsame.
    + simpl. apply andb_false_iff. by right.
Qed.

Lemma children_of_other_classes_witness :
  find_tty_by_interface_name
    (PList [PDict acm0_control_fields; acm0_data]) "STM32 CDC ACM0" =
  find_tty_by_interface_name
    (PList [PDict acm0_control_with_tty; acm0_data]) "STM32 CDC ACM0".
Proof.
  apply children_of_other_classes_are_ignored.
  constructor; [|constructor; [by left|constructor]].
  right. exists acm0_control_fields, acm0_control_with_tty.
  repeat split.
  intros k Hk. unfold acm0_control_with_tty. by rewrite lookup_insert_ne.
Defined.

(** ** Interfaces that the scan passes by, and the first hit *)

Lemma scan_grandchildren_barren l :
  forallb (fun g => negb (carries_tty g)) l = true ->
  scan_grandchildren l = None.
Proof.
  induction l as [|g l IH]; [done|].
  simpl. intros [Hg Hl]%andb_true_iff.
  destruct g; simpl in *; auto.
  apply negb_true_iff in Hg. rewrite Hg. auto.
Qed.

Lemma scan_children_barren_child c rest :
  barren_child c = true -> scan_children (c :: rest) = scan_children rest.
Proof.
  destruct c; simpl; try done.
  fold (children_of d). unfold iterable, elems.
  destruct (py_iter (children_of d)); [|done].
  simpl. intros H. by rewrite scan_grandchildren_barren.
Qed.

Lemma scan_children_barren l :
  forallb barren_child l = true -> scan_children l = Return None.
Proof.
  induction l as [|c l IH]; [done|].
  simpl forallb. intros [Hc Hl]%andb_true_iff.
  rewrite scan_children_barren_child; auto.
Qed.

Lemma scan_interfaces_barren_head name i rest :
  barren name i = true ->
  scan_interfaces name (i :: rest) = scan_interfaces name rest.
Proof.
  intros H. destruct (qualifies name i) eqn:Hq.
  - destruct i; try done.
    rewrite scan_interfaces_qualifying; [|done].
    unfold barren in H. rewrite Hq in H. simpl in H.
    unfold scan_interface. fold (children_of d).
    unfold iterable, elems in H.
    destruct (py_iter (children_of d)); [|done].
    by rewrite scan_children_barren.
  - by apply scan_interfaces_skip.
Qed.

Lemma scan_interfaces_barren name l :
  forallb (barren name) l = true -> scan_interfaces name l = Return None.
Proof.
  induction l as [|i l IH]; [done|].
  simpl forallb. intros [Hi Hl]%andb_true_iff.
  rewrite scan_interfaces_barren_head; auto.
Qed.

(** C1, as worded, fails.  With two class-10 interfaces of the target name,
    the first without any TTY and the second with one, the scan goes on past
    the first and returns the TTY found under the second, where the wording
    looks under the first only.  And when a child before the hit holds an
    [IORegistryEntryChildren] that cannot be iterated, the call ends in a
    [TypeError] instead of returning the TTY of the later grandchild. *)
Lemma first_match_alone_does_not_decide :
  (tty_under_first_match "STM32 CDC ACM0" [PDict acm0_barren; acm0_data]
     = PNone /\
   find_tty_by_interface_name (PList [PDict acm0_barren; acm0_data])
     "STM32 CDC ACM0" = ([], Return (PStr "/dev/cu.usbmodem14203"))) /\
  (tty_under_first_match "STM32 CDC ACM0" [PDict acm0_odd_grandchildren]
     = PStr "/dev/cu.usbmodem14203" /\
   find_tty_by_interface_name (PList [PDict acm0_odd_grandchildren])
     "STM32 CDC ACM0"
     = ([], Raise (TypeError "'int' object is not iterable"))).
Proof. vm_compute. repeat split. Qed.

(** C1, amended: the scan visits, in list order, the class-10 interfaces
    whose name equals the target, and under each the dict grandchildren of
    its dict children, depth-first.  It returns the [IOTTYDevice] of the
    first grandchild whose field is non-empty, which lies under the first
    such interface that has one (every interface before it is passed without
    a hit), and it stops there: whatever follows the hit, in the same
    [grandchildren], in later children or in later interfaces, has no say.
    This holds provided each [IORegistryEntryChildren] visited before the hit
    can be iterated. *)
Theorem find_tty_returns_first_hit
    (name : string) (pre post : list PLNode) (d : gmap string PLNode)
    (cpre cpost : list PLNode) (c : gmap string PLNode)
    (gpre gpost : list PLNode) (g : gmap string PLNode) (t : PLNode) :
  forallb (barren name) pre = true ->
  qualifies name (PDict d) = true ->
  py_iter (children_of d) = Return (cpre ++ PDict c :: cpost) ->
  forallb barren_child cpre = true ->
  py_iter (children_of c) = Return (gpre ++ PDict g :: gpost) ->
  forallb (fun g' => negb (carries_tty g')) gpre = true ->
  g !! "IOTTYDevice" = Some t ->
  py_truthy t = true ->
  find_tty_by_interface_name (PList (pre ++ PDict d :: post)) name =
  ([], Return t).
Proof.
  intros Hpre Hd Hcs Hcpre Hgs Hgpre Ht Htruthy.
  unfold find_tty_by_interface_name.
  rewrite scan_interfaces_app, (scan_interfaces_barren _ _ Hpre).
  rewrite (scan_interfaces_qualifying _ _ _ Hd).
  unfold scan_interface. fold (children_of d). rewrite Hcs.
  rewrite scan_children_app, (scan_children_barren _ Hcpre).
  simpl scan_children. fold (children_of c). rewrite Hgs.
  rewrite scan_grandchildren_app, (scan_grandchildren_barren _ Hgpre).
  simpl. unfold dict_get. rewrite Ht, Htruthy. done.
Qed.

Lemma find_tty_returns_first_hit_witness :
  find_tty_by_interface_name
    (PList ([acm0_control; PDict acm0_barren] ++
            PDict acm0_two_ports :: [PDict acm0_odd_children; acm0_data]))
    "STM32 CDC ACM0" = ([], Return (PStr "/dev/cu.first")).
Proof.
  apply (find_tty_returns_first_hit "STM32 CDC ACM0"
           [acm0_control; PDict acm0_barren]
           [PDict acm0_odd_children; acm0_data] acm0_two_ports
           [PStr "stray"; dict [("IOClass", PStr "AppleUSBACMData")]]
           [dict [("IORegistryEntryChildren", PInt 5)]] two_ports
           [PInt 7; dict [("IORegistryEntryName", PStr "idle")]]
           [PDict (tty_node "/dev/cu.second"); PInt 5]
           (tty_node "/dev/cu.first") (PStr "/dev/cu.first"));
    reflexivity.
Defined.

(** C3, as worded, fails.  A list may hold a class-10 interface of the
    target name without any TTY below it next to another one that has a TTY:
    the result is then that TTY, not [None].  And a class-10 interface of the
    target name whose [IORegistryEntryChildren] is an integer has no child
    and no grandchild at all, yet the call ends in a [TypeError]. *)
Lemma a_barren_match_does_not_decide :
  (In (PDict acm0_barren) [PDict acm0_barren; acm0_data] /\
   qualifies "STM32 CDC ACM0" (PDict acm0_barren) = true /\
   tty_carriers acm0_barren = [] /\
   find_tty_by_interface_name (PList [PDict acm0_barren; acm0_data])
     "STM32 CDC ACM0" = ([], Return (PStr "/dev/cu.usbmodem14203"))) /\
  (In (PDict acm0_odd_children) [PDict acm0_odd_children] /\
   qualifies "STM32 CDC ACM0" (PDict acm0_odd_children) = true /\
   tty_carriers acm0_odd_children = [] /\
   find_tty_by_interface_name (PList [PDict acm0_odd_children])
     "STM32 CDC ACM0"
     = ([], Raise (TypeError "'int' object is not iterable"))).
Proof. repeat split; try (by left); vm_compute; reflexivity. Qed.

(** C3, amended: when every class-10 interface of the list whose name equals
    the target is without a TTY below it (each [IORegistryEntryChildren]
    under it can be iterated and no grandchild carries a non-empty
    [IOTTYDevice]), [find_tty_by_interface_name] returns [None]; it raises
    nothing and prints nothing. *)
Theorem barren_matches_give_not_found (pl : list PLNode) (name : string) :
  forallb (barren name) pl = true ->
  find_tty_by_interface_name (PList pl) name = ([], Return PNone).
Proof.
  intros H. unfold find_tty_by_interface_name.
  by rewrite scan_interfaces_barren.
Qed.

Lemma barren_matches_witness :
  find_tty_by_interface_name
    (PList [acm0_control; PInt 5; PDict acm0_barren]) "STM32 CDC ACM0"
  = ([], Return PNone).
Proof. apply barren_matches_give_not_found. reflexivity. Defined.

(** ** The dump, loop by loop *)

Lemma dump_grandchildren_app k l1 l2 :
  dump_grandchildren k (l1 ++ l2) =
  (dump_grandchildren k l1 ;;
   dump_grandchildren (k + Z.of_nat (length l1)) l2).
Proof.
  revert k. induction l1 as [|g l1 IH]; intros k.
  - change (dump_grandchildren k l2 = (ret tt ;; dump_grandchildren (k + 0) l2)).
    by rewrite bind_ret_l, Z.add_0_r.
  - replace (k + Z.of_nat (length (g :: l1)))
      with (k + 1 + Z.of_nat (length l1)) by (simpl length; lia).
    destruct g; cbn [app dump_grandchildren]; rewrite ?bind_assoc, IH; done.
Qed.

Lemma dump_children_app j l1 l2 :
  dump_children j (l1 ++ l2) =
  (dump_children j l1 ;; dump_children (j + Z.of_nat (length l1)) l2).
Proof.
  revert j. induction l1 as [|c l1 IH]; intros j.
  - change (dump_children j l2 = (ret tt ;; dump_children (j + 0) l2)).
    by rewrite bind_ret_l, Z.add_0_r.
  - replace (j + Z.of_nat (length (c :: l1)))
      with (j + 1 + Z.of_nat (length l1)) by (simpl length; lia).
    destruct c; cbn [app dump_children]; rewrite ?bind_assoc, IH; done.
Qed.

Lemma dump_interfaces_app i l1 l2 :
  dump_interfaces i (l1 ++ l2) =
  (dump_interfaces i l1 ;; dump_interfaces (i + Z.of_nat (length l1)) l2).
Proof.
  revert i. induction l1 as [|x l1 IH]; intros i.
  - change (dump_interfaces i l2 = (ret tt ;; dump_interfaces (i + 0) l2)).
    by rewrite bind_ret_l, Z.add_0_r.
  - replace (i + Z.of_nat (length (x :: l1)))
      with (i + 1 + Z.of_nat (length l1)) by (simpl length; lia).
    destruct x; cbn [app dump_interfaces]; rewrite ?bind_assoc, IH; done.
Qed.

(** ** The fields of one interface *)

Lemma print_fields_lines d :
  print_fields d =
  ([defaulted_line d "IORegistryEntryName" "Name: ";
    defaulted_line d "bInterfaceClass" "Class: ";
    defaulted_line d "bInterfaceSubClass" "SubClass: ";
    defaulted_line d "bInterfaceProtocol" "Protocol: "] ++
   guarded_line d "USB Product Name" "Product: " ++
   guarded_line d "USB Vendor Name" "Vendor: " ++
   guarded_line d "USB Serial Number" "Serial: " ++
   [defaulted_line d "idVendor" "Vendor ID: ";
    defaulted_line d "idProduct" "Product ID: ";
    defaulted_line d "locationID" "Location ID: "],
   Return tt).
Proof.
  unfold print_fields, guarded_line.
  by destruct (d !! "USB Product Name"), (d !! "USB Vendor Name"),
    (d !! "USB Serial Number").
Qed.

(** C5, as worded, fails for three of the ten fields: an interface without
    product, vendor and serial gets no line for them at all, not a line with
    ["Unknown"].  And the dump of an entry is not safe from exceptions: with
    an integer under [IORegistryEntryChildren] it ends in a [TypeError] after
    the field lines. *)
Lemma absent_product_is_not_unknown :
  extract_usb_info (PList [PDict no_fields]) None =
    ([found_line 1; banner_line 0;
      [Lit "Name: "; Fmt (PStr "Unknown")];
      [Lit "Class: "; Fmt (PStr "Unknown")];
      [Lit "SubClass: "; Fmt (PStr "Unknown")];
      [Lit "Protocol: "; Fmt (PStr "Unknown")];
      [Lit "Vendor ID: "; Fmt (PStr "Unknown")];
      [Lit "Product ID: "; Fmt (PStr "Unknown")];
      [Lit "Location ID: "; Fmt (PStr "Unknown")]], Return tt) /\
  ~ In [Lit "Product: "; Fmt (PStr "Unknown")]
       (extract_usb_info (PList [PDict no_fields]) None).1 /\
  (extract_usb_info (PList [PDict acm0_odd_children]) None).2 =
    Raise (TypeError "object of type 'int' has no len()").
Proof.
  split; [reflexivity|]. split; [|reflexivity].
  vm_compute. intros H.
  repeat (destruct H as [H|H]; [discriminate H|]). exact H.
Qed.

(** ** The dispatch of [main] *)

Lemma silent_bind {A B} (m : Run A) (k : A -> Run B) :
  silent_on_lookup m -> (forall a, silent_on_lookup (k a)) ->
  silent_on_lookup (x <- m ;; k x).
Proof.
  unfold silent_on_lookup. destruct m as [out [a|e]]; simpl; [|done].
  intros Hm Hk. specialize (Hk a). destruct (k a) as [out' r].
  simpl in *. by apply Forall_app.
Qed.

Lemma silent_print (l : Line) :
  lookup_line l = false -> silent_on_lookup (print l).
Proof. intros H. by repeat constructor. Qed.

Lemma silent_lift {A} (r : Result A) : silent_on_lookup (lift r).
Proof. constructor. Qed.

Lemma silent_ret {A} (a : A) : silent_on_lookup (ret a).
Proof. constructor. Qed.

Ltac silent_step :=
  first
    [ apply silent_bind; [|intros ?]
    | apply silent_print; reflexivity
    | apply silent_lift
    | apply silent_ret ].

Lemma silent_dump_grandchildren k l :
  silent_on_lookup (dump_grandchildren k l).
Proof.
  revert k. induction l as [|g l IH]; intros k; [apply silent_ret|].
  destruct g; cbn [dump_grandchildren]; try apply IH.
  apply silent_bind; [|intros _; apply IH].
  destruct (py_truthy (dict_get _ _ _)); by apply silent_print.
Qed.

Lemma silent_dump_children j l : silent_on_lookup (dump_children j l).
Proof.
  revert j. induction l as [|c l IH]; intros j; [apply silent_ret|].
  destruct c; cbn [dump_children];
    try (apply silent_bind; [by apply silent_print|intros _; apply IH]).
  apply silent_bind; [by apply silent_print|intros _].
  apply silent_bind; [|intros _; apply IH].
  destruct (py_truthy (dict_get _ _ _)); [|apply silent_ret].
  repeat silent_step. apply silent_dump_grandchildren.
Qed.

Lemma silent_print_fields d : silent_on_lookup (print_fields d).
Proof.
  unfold silent_on_lookup. rewrite print_fields_lines. simpl fst.
  unfold guarded_line.
  destruct (d !! "USB Product Name"), (d !! "USB Vendor Name"),
    (d !! "USB Serial Number"); by repeat constructor.
Qed.

Lemma silent_print_children d : silent_on_lookup (print_children d).
Proof.
  unfold print_children.
  destruct (py_truthy (dict_get _ _ _)); [|apply silent_ret].
  repeat silent_step. apply silent_dump_children.
Qed.

Lemma silent_dump_interfaces i l : silent_on_lookup (dump_interfaces i l).
Proof.
  revert i. induction l as [|x l IH]; intros i; [apply silent_ret|].
  destruct x; cbn [dump_interfaces];
    try (apply silent_bind; [by apply silent_print|intros _; apply IH]).
  apply silent_bind; [by apply silent_print|intros _].
  apply silent_bind; [apply silent_print_fields|intros _].
  apply silent_bind; [apply silent_print_children|intros _; apply IH].
Qed.

Lemma silent_full_dump pl : silent_on_lookup (extract_usb_info pl None).
Proof.
  destruct pl; try (by apply silent_print).
  apply silent_bind; [by apply silent_print|intros _].
  apply silent_dump_interfaces.
Qed.

Lemma silent_acquire w args : silent_on_lookup (acquire w args).
Proof.
  unfold acquire, load_from_file, get_usb_interfaces.
  destruct (debug args) as [path|]; [destruct (py_truthy (PStr path))|];
    (apply silent_bind; [by apply silent_print|intros _]);
    try (destruct (file w path); [apply silent_ret|]);
    try (destruct (ioreg w); [apply silent_ret|]);
    (apply silent_bind; [by apply silent_print|intros _; apply silent_ret]).
Qed.

Lemma silent_full_dump_run w args : silent_on_lookup (full_dump_run w args).
Proof.
  apply silent_bind; [apply silent_acquire|intros pl].
  destruct (negb (py_truthy pl)); [by apply silent_print|].
  apply silent_full_dump.
Qed.

(** The dispatch at the end of [main], and where a line of the name-based
    resolution can come from. *)
Lemma main_dispatch (w : World) (args : Args) :
  (list_flag args = true -> main w args = full_dump_run w args) /\
  (given (interface_name args) = false ->
   main w args = full_dump_run w args) /\
  (forall n, list_flag args = false -> interface_name args = Some n ->
             n <> "" -> main w args = lookup_run w args n) /\
  (forall l, In l (main w args).1 -> lookup_line l = true ->
             list_flag args = false /\ given (interface_name args) = true).
Proof.
  assert (list_flag args = true -> main w args = full_dump_run w args) as H1.
  { intros H. unfold main, full_dump_run. by rewrite H. }
  assert (given (interface_name args) = false ->
          main w args = full_dump_run w args) as H2.
  { intros H. unfold main, full_dump_run. rewrite H.
    by rewrite orb_true_r. }
  repeat split; [done|done| | |].
  - intros n Hl Hn Hne. unfold main, lookup_run. rewrite Hl, Hn.
    destruct n; [done|]. reflexivity.
  - destruct (list_flag args) eqn:Hl; [|done].
    rewrite H1 in H by done.
    pose proof (silent_full_dump_run w args) as Hs.
    unfold silent_on_lookup in Hs. rewrite Forall_forall in Hs.
    apply list_elem_of_In, Hs in H. congruence.
  - destruct (given (interface_name args)) eqn:Hg; [done|].
    rewrite H2 in H by done.
    pose proof (silent_full_dump_run w args) as Hs.
    unfold silent_on_lookup in Hs. rewrite Forall_forall in Hs.
    apply list_elem_of_In, Hs in H. congruence.
Qed.

(** * Further properties *)

(** ** What a result of the scan tells about the list *)

Lemma truthy_lookup (g : gmap string PLNode) (key : string) :
  py_truthy (dict_get g key PNone) = true ->
  g !! key = Some (dict_get g key PNone).
Proof. unfold dict_get. by destruct (g !! key). Qed.

Lemma scan_grandchildren_found l t :
  scan_grandchildren l = Some t ->
  exists g, In (PDict g) l /\ g !! "IOTTYDevice" = Some t /\
            py_truthy t = true.
Proof.
  induction l as [|x l IH]; [done|].
  assert (scan_grandchildren l = Some t ->
          exists g, In (PDict g) (x :: l) /\ g !! "IOTTYDevice" = Some t /\
                    py_truthy t = true) as Hrest.
  { intros (g & Hin & Hg)%IH. exists g. split; [by right|done]. }
  destruct x; simpl; try done.
  destruct (py_truthy (dict_get d "IOTTYDevice" PNone)) eqn:E; [|done].
  intros [= <-]. exists d. split; [by left|].
  split; [by apply truthy_lookup|done].
Qed.

Lemma scan_children_found l t :
  scan_children l = Return (Some t) ->
  exists c g, In (PDict c) l /\ In (PDict g) (elems (children_of c)) /\
              g !! "IOTTYDevice" = Some t /\ py_truthy t = true.
Proof.
  induction l as [|x l IH]; [done|].
  assert (scan_children l = Return (Some t) ->
          exists c g, In (PDict c) (x :: l) /\
                      In (PDict g) (elems (children_of c)) /\
                      g !! "IOTTYDevice" = Some t /\ py_truthy t = true)
    as Hrest.
  { intros (c & g & Hin & Hg)%IH. exists c, g. split; [by right|done]. }
  destruct x; simpl; try done.
  fold (children_of d).
  destruct (py_iter (children_of d)) as [gcs|e] eqn:E; [|done].
  destruct (scan_grandchildren gcs) as [t'|] eqn:Hg; [|done].
  intros [= ->]. apply scan_grandchildren_found in Hg as (g & Hin & Hg).
  exists d, g. split; [by left|]. unfold elems. by rewrite E.
Qed.

Lemma scan_interfaces_found name pl t :
  scan_interfaces name pl = Return (Some t) ->
  exists d c g,
    In (PDict d) pl /\ qualifies name (PDict d) = true /\
    In (PDict c) (elems (children_of d)) /\
    In (PDict g) (elems (children_of c)) /\
    g !! "IOTTYDevice" = Some t /\ py_truthy t = true.
Proof.
  intros Hscan. induction pl as [|x pl IH]; [done|].
  assert (scan_interfaces name pl = Return (Some t) ->
          exists d c g,
            In (PDict d) (x :: pl) /\ qualifies name (PDict d) = true /\
            In (PDict c) (elems (children_of d)) /\
            In (PDict g) (elems (children_of c)) /\
            g !! "IOTTYDevice" = Some t /\ py_truthy t = true) as Hrest.
  { intros (d & c & g & Hin & H)%IH. exists d, c, g. split; [by right|done]. }
  destruct (qualifies name x) eqn:Hq.
  - destruct x; try done.
    rewrite scan_interfaces_qualifying in Hscan by done.
    unfold scan_interface in Hscan. fold (children_of d) in Hscan.
    destruct (py_iter (children_of d)) as [cs|e] eqn:E; [|done].
    destruct (scan_children cs) as [[t'|]|e] eqn:Hc; try done; [|auto].
    injection Hscan as ->.
    apply scan_children_found in Hc as (c & g & Hin & Hg).
    exists d, c, g. split; [by left|]. split; [done|].
    unfold elems at 1. by rewrite E.
  - rewrite scan_interfaces_skip in Hscan by done. auto.
Qed.

Lemma find_tty_found name pl t :
  find_tty_by_interface_name (PList pl) name = ([], Return t) ->
  t <> PNone -> scan_interfaces name pl = Return (Some t).
Proof.
  unfold find_tty_by_interface_name. intros Hfind Ht.
  destruct (scan_interfaces name pl) as [[t'|]|e]; by inversion Hfind.
Qed.

(** X1: a value returned by [find_tty_by_interface_name] other than [None]
    is never made up: it is the non-empty [IOTTYDevice] of a dict grandchild
    under a dict child under a class-10 dict interface of the list whose name
    equals the target. *)
Theorem found_tty_comes_from_a_grandchild
    (pl : list PLNode) (name : string) (t : PLNode) :
  find_tty_by_interface_name (PList pl) name = ([], Return t) ->
  t <> PNone ->
  exists d c g,
    In (PDict d) pl /\ qualifies name (PDict d) = true /\
    In (PDict c) (elems (children_of d)) /\
    In (PDict g) (elems (children_of c)) /\
    g !! "IOTTYDevice" = Some t /\ py_truthy t = true.
Proof.
  intros Hfind Ht. by apply scan_interfaces_found, find_tty_found.
Qed.

Lemma found_tty_witness :
  exists d c g,
    In (PDict d) [acm0_control; acm0_data] /\
    qualifies "STM32 CDC ACM0" (PDict d) = true /\
    In (PDict c) (elems (children_of d)) /\
    In (PDict g) (elems (children_of c)) /\
    g !! "IOTTYDevice" = Some (PStr "/dev/cu.usbmodem14203") /\
    py_truthy (PStr "/dev/cu.usbmodem14203") = true.
Proof.
  apply (found_tty_comes_from_a_grandchild [acm0_control; acm0_data]
           "STM32 CDC ACM0" (PStr "/dev/cu.usbmodem14203"));
    [reflexivity|discriminate].
Defined.

(** The scan against the flat list of reachable grandchildren. *)
Lemma scan_grandchildren_first_tty l : scan_grandchildren l = first_tty l.
Proof.
  induction l as [|g l IH]; [done|].
  unfold first_tty in *. destruct g; simpl; try done.
  by destruct (py_truthy (dict_get _ _ _)).
Qed.

Lemma first_tty_app l1 l2 :
  first_tty (l1 ++ l2) =
  match first_tty l1 with Some t => Some t | None => first_tty l2 end.
Proof. rewrite <- !scan_grandchildren_first_tty. apply scan_grandchildren_app. Qed.

Lemma scan_children_first_tty cs :
  forallb (fun c => match c with
                    | PDict cd => iterable (children_of cd)
                    | _ => true
                    end) cs = true ->
  scan_children cs =
  Return (first_tty (flat_map (fun c => match c with
                                        | PDict cd => elems (children_of cd)
                                        | _ => []
                                        end) cs)).
Proof.
  induction cs as [|c cs IH]; [done|].
  simpl forallb. intros [Hc Hcs]%andb_true_iff. specialize (IH Hcs).
  destruct c; simpl; try done.
  rewrite first_tty_app. fold (children_of d).
  unfold iterable, elems in *.
  destruct (py_iter (children_of d)); [|done].
  rewrite scan_grandchildren_first_tty.
  by destruct (first_tty a).
Qed.

(** X3: when every [IORegistryEntryChildren] that the scan may iterate can
    be iterated, the result is read off one flat list: the grandchildren
    under the dict children of the class-10 interfaces whose name equals the
    target, in list order; the result is the [IOTTYDevice] of the first of
    them that carries a non-empty one, and [None] when none does. *)
Theorem find_tty_is_first_reachable (pl : list PLNode) (name : string) :
  forallb (iterable_below name) pl = true ->
  find_tty_by_interface_name (PList pl) name =
  ([], Return (default PNone (first_tty (reachable name pl)))).
Proof.
  intros H. unfold find_tty_by_interface_name.
  assert (scan_interfaces name pl = Return (first_tty (reachable name pl)))
    as ->; [|by destruct (first_tty _)].
  induction pl as [|i pl IH]; [done|].
  simpl forallb in H. apply andb_true_iff in H as [Hi Hpl].
  specialize (IH Hpl). unfold reachable in *. cbn [flat_map].
  destruct (qualifies name i) eqn:Hq.
  - destruct i; try done.
    rewrite scan_interfaces_qualifying, first_tty_app by done.
    unfold iterable_below in Hi. rewrite Hq in Hi. simpl in Hi.
    apply andb_true_iff in Hi as [Hit Hcs].
    unfold scan_interface, grandchildren_of. fold (children_of d).
    unfold iterable, elems in *.
    destruct (py_iter (children_of d)); [|done].
    rewrite scan_children_first_tty, IH by done. unfold elems.
    by destruct (first_tty (flat_map _ a)).
  - rewrite scan_interfaces_skip by done.
    by destruct i.
Qed.

Lemma find_tty_is_first_reachable_witness :
  find_tty_by_interface_name
    (PList [acm0_control; PDict acm0_barren; PInt 3; acm0_data])
    "STM32 CDC ACM0" =
  ([], Return (default PNone
                 (first_tty (reachable "STM32 CDC ACM0"
                    [acm0_control; PDict acm0_barren; PInt 3;
                     acm0_data])))).
Proof. apply find_tty_is_first_reachable. reflexivity. Defined.

Lemma scan_grandchildren_none l :
  scan_grandchildren l = None ->
  forallb (fun g => negb (carries_tty g)) l = true.
Proof.
  induction l as [|g l IH]; [done|].
  destruct g; simpl; try done.
  destruct (py_truthy (dict_get d "IOTTYDevice" PNone)); [done|].
  apply IH.
Qed.

Lemma scan_children_none l :
  scan_children l = Return None -> forallb barren_child l = true.
Proof.
  induction l as [|c l IH]; [done|].
  destruct c; simpl; try done.
  fold (children_of d). unfold iterable, elems.
  destruct (py_iter (children_of d)) as [gcs|e]; [|done].
  destruct (scan_grandchildren gcs) eqn:Hg; [done|].
  intros H. rewrite (scan_grandchildren_none _ Hg). by apply IH.
Qed.

(** X2: [None] is returned only when there is nothing to find: every
    class-10 interface of the list whose name equals the target has then
    been scanned to its end, each [IORegistryEntryChildren] under it could be
    iterated, and no grandchild carries a non-empty [IOTTYDevice]. *)
Theorem not_found_means_barren (pl : list PLNode) (name : string) :
  find_tty_by_interface_name (PList pl) name = ([], Return PNone) ->
  forallb (barren name) pl = true.
Proof.
  intros H%find_tty_not_found.
  induction pl as [|x pl IH]; [done|].
  simpl forallb. destruct (qualifies name x) eqn:Hq.
  - destruct x; try done.
    rewrite scan_interfaces_qualifying in H by done.
    unfold scan_interface in H. fold (children_of d) in H.
    unfold barren. rewrite Hq. simpl. unfold iterable, elems.
    destruct (py_iter (children_of d)) as [cs|e]; [|done].
    destruct (scan_children cs) as [[t|]|e] eqn:Hc; try done.
    rewrite (scan_children_none _ Hc). by apply IH.
  - rewrite scan_interfaces_skip in H by done.
    rewrite (IH H), andb_true_r.
    destruct x; try done. unfold barren. by rewrite Hq.
Qed.

Lemma not_found_means_barren_witness :
  forallb (barren "STM32 CDC ACM0")
    [acm0_control; PDict acm0_barren; PStr "stray"] = true.
Proof. apply not_found_means_barren. reflexivity. Defined.

(** X4: only the class-10 interfaces whose name equals the target have a
    say: dropping every other element of the list (the other dicts and
    whatever is not a dict) leaves the run unchanged. *)
Theorem only_qualifying_interfaces_matter (pl : list PLNode) (name : string) :
  find_tty_by_interface_name (PList (List.filter (qualifies name) pl)) name =
  find_tty_by_interface_name (PList pl) name.
Proof.
  unfold find_tty_by_interface_name.
  assert (scan_interfaces name (List.filter (qualifies name) pl) =
          scan_interfaces name pl) as ->; [|done].
  induction pl as [|x pl IH]; [done|].
  simpl List.filter. destruct (qualifies name x) eqn:Hq.
  - change (x :: ?l) with ([x] ++ l).
    by rewrite !scan_interfaces_app, IH.
  - by rewrite scan_interfaces_skip.
Qed.

(** X5: the scan of a concatenation is the scan of its first part, and, only
    when that one returns [None], the scan of its second part. *)
Theorem find_tty_over_concatenation (l1 l2 : list PLNode) (name : string) :
  find_tty_by_interface_name (PList (l1 ++ l2)) name =
  if not_found (find_tty_by_interface_name (PList l1) name)
  then find_tty_by_interface_name (PList l2) name
  else find_tty_by_interface_name (PList l1) name.
Proof.
  unfold find_tty_by_interface_name. rewrite scan_interfaces_app.
  destruct (scan_interfaces name l1) as [[t|]|e] eqn:E; try done.
  apply scan_interfaces_truthy in E. unfold not_found. simpl.
  by destruct t.
Qed.

(** ** When the dump gets to its end *)

Lemma bind_status {A B} (m : Run A) (k : A -> Run B) :
  (x <- m ;; k x).2 =
  match m.2 with
  | Return a => (k a).2
  | Raise e => Raise e
  end.
Proof. destruct m as [out [a|e]]; simpl; [|done]. by destruct (k a). Qed.

Lemma bind_output {A B} (m : Run A) (k : A -> Run B) :
  (x <- m ;; k x).1 =
  match m.2 with
  | Return a => m.1 ++ (k a).1
  | Raise e => m.1
  end.
Proof. destruct m as [out [a|e]]; simpl; [|done]. by destruct (k a). Qed.

Lemma completes_bind {A B} (m : Run A) (k : A -> Run B) :
  completes (x <- m ;; k x) =
  match m.2 with
  | Return a => completes (k a)
  | Raise _ => false
  end.
Proof. unfold completes. rewrite bind_status. by destruct m.2. Qed.

Lemma completes_seq {B} (m : Run unit) (k : Run B) :
  completes (m ;; k) = completes m && completes k.
Proof. rewrite completes_bind. unfold completes. by destruct m.2. Qed.

Lemma sized_iterable v : sized v = true -> iterable v = true.
Proof. by destruct v. Qed.

Lemma completes_dump_grandchildren k l :
  completes (dump_grandchildren k l) = true.
Proof.
  revert k. induction l as [|g l IH]; intros k; [done|].
  destruct g; cbn [dump_grandchildren]; try apply IH.
  rewrite completes_seq, IH.
  by destruct (py_truthy (dict_get _ _ _)).
Qed.

Lemma completes_grandchildren_part (c : gmap string PLNode) :
  completes
    (if py_truthy (children_of c) then
       n <- lift (py_len (children_of c)) ;;
       print [Lit "    Grandchildren ("; Fmt (int_of_nat n); Lit "):"] ;;
       gcs <- lift (py_iter (children_of c)) ;;
       dump_grandchildren 0 gcs
     else ret tt) = dumpable_child (PDict c).
Proof.
  unfold dumpable_child. destruct (py_truthy (children_of c)); [|done].
  cbn [negb orb]. rewrite completes_bind. unfold sized, lift. cbn [snd].
  destruct (py_len (children_of c)) as [n|e] eqn:Hlen; [|done].
  rewrite completes_seq, completes_bind. cbn [snd andb print completes].
  assert (iterable (children_of c) = true) as Hit.
  { apply sized_iterable. unfold sized. by rewrite Hlen. }
  unfold iterable in Hit.
  destruct (py_iter (children_of c)); [|done].
  apply completes_dump_grandchildren.
Qed.

Lemma completes_dump_children j l :
  completes (dump_children j l) = forallb dumpable_child l.
Proof.
  revert j. induction l as [|c l IH]; intros j; [done|].
  destruct c; cbn [dump_children forallb];
    rewrite ?completes_seq, ?IH; try done.
  fold (children_of d). by rewrite completes_grandchildren_part.
Qed.

Lemma completes_print_fields d : completes (print_fields d) = true.
Proof. by rewrite print_fields_lines. Qed.

Lemma completes_print_children d :
  completes (print_children d) = dumpable (PDict d).
Proof.
  unfold print_children, dumpable. fold (children_of d).
  destruct (py_truthy (children_of d)); [|done].
  cbn [negb orb]. rewrite completes_bind. unfold sized, lift. cbn [snd].
  destruct (py_len (children_of d)) as [n|e] eqn:Hlen; [|done].
  rewrite completes_seq, completes_bind. cbn [snd andb print completes].
  assert (iterable (children_of d) = true) as Hit.
  { apply sized_iterable. unfold sized. by rewrite Hlen. }
  unfold iterable, elems in *.
  destruct (py_iter (children_of d)); [|done].
  apply completes_dump_children.
Qed.

Lemma completes_dump_interfaces i l :
  completes (dump_interfaces i l) = forallb dumpable l.
Proof.
  revert i. induction l as [|x l IH]; intros i; [done|].
  destruct x; cbn [dump_interfaces forallb];
    rewrite ?completes_seq, ?IH; try done.
  by rewrite completes_print_fields, completes_print_children.
Qed.

(** X6: a value under [IORegistryEntryChildren] that is truthy and has no
    [len], in a dict element of the list or in a dict child of one whose own
    children have a length, stops the full dump: it does not get to its end
    but raises. *)
Theorem undumpable_element_stops_the_dump (pl : list PLNode) :
  forallb dumpable pl = false ->
  exists e, (extract_usb_info (PList pl) None).2 = Raise e.
Proof.
  intros H.
  assert (completes (extract_usb_info (PList pl) None) = false) as Hc.
  { unfold extract_usb_info, show_all.
    by rewrite completes_seq, completes_dump_interfaces. }
  unfold completes in Hc.
  destruct (extract_usb_info (PList pl) None).2 as [|e]; [done|by exists e].
Qed.

Lemma undumpable_element_witness :
  exists e,
    (extract_usb_info
       (PList [acm0_control;
               dict [("IORegistryEntryChildren",
                      PList [PDict odd_grandchildren])]]) None).2 = Raise e.
Proof. apply undumpable_element_stops_the_dump. reflexivity. Defined.

(** ** The headings of the dump *)

Lemma no_heading_bind {A B} (m : Run A) (k : A -> Run B) :
  no_heading m -> (forall a, no_heading (k a)) ->
  no_heading (x <- m ;; k x).
Proof.
  unfold no_heading. intros Hm Hk. rewrite bind_output.
  destruct m.2; [|done]. by rewrite List.filter_app, Hm, Hk.
Qed.

Lemma no_heading_print (l : Line) :
  is_heading l = false -> no_heading (print l).
Proof. unfold no_heading. simpl. by intros ->. Qed.

Lemma no_heading_dump_grandchildren k l :
  no_heading (dump_grandchildren k l).
Proof.
  revert k. induction l as [|g l IH]; intros k; [done|].
  destruct g; cbn [dump_grandchildren]; try apply IH.
  apply no_heading_bind; [|intros _; apply IH].
  destruct (py_truthy (dict_get _ _ _)); by apply no_heading_print.
Qed.

Lemma no_heading_dump_children j l : no_heading (dump_children j l).
Proof.
  revert j. induction l as [|c l IH]; intros j; [done|].
  destruct c; cbn [dump_children];
    try (apply no_heading_bind; [by apply no_heading_print|intros _; apply IH]).
  apply no_heading_bind; [by apply no_heading_print|intros _].
  apply no_heading_bind; [|intros _; apply IH].
  destruct (py_truthy (dict_get _ _ _)); [|done].
  apply no_heading_bind; [done|intros n].
  apply no_heading_bind; [by apply no_heading_print|intros _].
  apply no_heading_bind; [done|intros gcs].
  apply no_heading_dump_grandchildren.
Qed.

Lemma no_heading_print_fields d : no_heading (print_fields d).
Proof.
  unfold no_heading. rewrite print_fields_lines. simpl fst.
  unfold guarded_line.
  by destruct (d !! "USB Product Name"), (d !! "USB Vendor Name"),
    (d !! "USB Serial Number").
Qed.

Lemma no_heading_print_children d : no_heading (print_children d).
Proof.
  unfold print_children.
  destruct (py_truthy (dict_get _ _ _)); [|done].
  apply no_heading_bind; [done|intros n].
  apply no_heading_bind; [by apply no_heading_print|intros _].
  apply no_heading_bind; [done|intros cs].
  apply no_heading_dump_children.
Qed.

Lemma headings_of_dump_interfaces i l :
  List.filter is_heading (dump_interfaces i l).1 `prefix_of` headings i l /\
  (completes (dump_interfaces i l) = true ->
   List.filter is_heading (dump_interfaces i l).1 = headings i l).
Proof.
  revert i. induction l as [|x l IH]; intros i; [done|].
  destruct (IH (i + 1)) as [Hpre Heq].
  assert (forall (m : Run unit),
    no_heading m ->
    let r := (print (heading_of i x) ;; m ;; dump_interfaces (i + 1) l) in
    List.filter is_heading r.1 `prefix_of` headings i (x :: l) /\
    (completes r = true -> List.filter is_heading r.1 = headings i (x :: l)))
    as Hstep.
  { intros m Hm r. subst r.
    assert (is_heading (heading_of i x) = true) as Hh by by destruct x.
    rewrite !completes_seq, bind_print. cbn [fst snd List.filter headings].
    rewrite Hh, bind_output. change (completes (print _)) with true.
    unfold completes at 1. unfold no_heading in Hm. cbn [andb].
    destruct m.2.
    - rewrite List.filter_app, Hm. cbn [app]. split.
      + by apply prefix_cons.
      + intros H. f_equal. by apply Heq.
    - rewrite Hm. split; [|done]. apply prefix_cons, prefix_nil. }
  destruct x;
    try (specialize (Hstep (ret tt) eq_refl); cbn [dump_interfaces];
         by rewrite bind_ret_l in Hstep).
  cbn [dump_interfaces].
  specialize (Hstep (print_fields d ;; print_children d)).
  rewrite bind_assoc in Hstep. apply Hstep.
  apply no_heading_bind; [apply no_heading_print_fields|intros _].
  apply no_heading_print_children.
Qed.

(** X7: the dump announces the top-level elements one by one, in list
    order and numbered from 1, each with exactly one heading (a banner for a
    dict, the not-a-dictionary line for anything else) and prints no other
    line that looks like a heading: the headings in the output are those of
    a front part of the list, and of the whole list when the dump gets to its
    end. *)
Theorem dump_headings_follow_the_list (pl : list PLNode) :
  List.filter is_heading (extract_usb_info (PList pl) None).1
    `prefix_of` headings 0 pl /\
  (forallb dumpable pl = true ->
   List.filter is_heading (extract_usb_info (PList pl) None).1 =
   headings 0 pl).
Proof.
  unfold extract_usb_info, show_all. rewrite bind_print. cbn [fst List.filter].
  change (is_heading _) with false. cbv iota.
  destruct (headings_of_dump_interfaces 0 pl) as [Hpre Heq].
  split; [done|]. intros H. apply Heq.
  by rewrite completes_dump_interfaces.
Qed.

Lemma dump_headings_witness :
  List.filter is_heading
    (extract_usb_info (PList [PInt 5; acm0_data; PStr "x"]) None).1 =
  headings 0 [PInt 5; acm0_data; PStr "x"].
Proof.
  refine (proj2 (dump_headings_follow_the_list [PInt 5; acm0_data; PStr "x"])
            _).
  reflexivity.
Defined.

(** ** What the lookup finds, the dump shows *)

Lemma in_bind_l {A B} (m : Run A) (k : A -> Run B) (l : Line) :
  In l m.1 -> In l (x <- m ;; k x).1.
Proof.
  intros H. rewrite bind_output. destruct m.2; [|done].
  apply in_or_app. by left.
Qed.

Lemma in_bind_r {A B} (m : Run A) (k : A -> Run B) (l : Line) (a : A) :
  m.2 = Return a -> In l (k a).1 -> In l (x <- m ;; k x).1.
Proof.
  intros Hm H. rewrite bind_output, Hm. apply in_or_app. by right.
Qed.

Lemma bind_lift_return {A B} (a : A) (k : A -> Run B) :
  (x <- lift (Return a) ;; k x) = k a.
Proof. apply bind_ret_l. Qed.

Lemma completes_unit (m : Run unit) : completes m = true -> m.2 = Return tt.
Proof. unfold completes. by destruct m.2 as [[]|]. Qed.

(** Only a non-empty list holds a dict among its elements. *)
Lemma elems_with_dict v g :
  In (PDict g) (elems v) ->
  exists l, v = PList l /\ py_truthy v = true /\ elems v = l.
Proof.
  destruct v; unfold elems; simpl; try done.
  - intros (? & ? & ?)%in_map_iff. done.
  - intros H. exists l. by destruct l.
  - unfold chars. intros (? & ? & ?)%in_map_iff. done.
  - intros (? & ? & ?)%in_map_iff. done.
Qed.

Lemma dump_grandchildren_shows g t gcs k0 :
  In (PDict g) gcs -> g !! "IOTTYDevice" = Some t -> py_truthy t = true ->
  exists k gc_name, In (tty_line k gc_name t) (dump_grandchildren k0 gcs).1.
Proof.
  intros Hin Hg Ht. revert k0.
  induction gcs as [|x gcs IH]; intros k0; [done|].
  destruct Hin as [->|Hin].
  - cbn [dump_grandchildren].
    assert (dict_get g "IOTTYDevice" PNone = t) as ->
      by (unfold dict_get; by rewrite Hg).
    rewrite Ht. eexists _, _. apply in_bind_l. by left.
  - destruct (IH Hin (k0 + 1)) as (k & nm & H).
    exists k, nm. destruct x; cbn [dump_grandchildren]; try done.
    eapply in_bind_r; [|done].
    apply completes_unit.
    by destruct (py_truthy (dict_get _ _ _)).
Qed.

Lemma dump_children_shows c g t cs j :
  In (PDict c) cs -> In (PDict g) (elems (children_of c)) ->
  g !! "IOTTYDevice" = Some t -> py_truthy t = true ->
  completes (dump_children j cs) = true ->
  exists k gc_name, In (tty_line k gc_name t) (dump_children j cs).1.
Proof.
  intros Hin Hgin Hg Ht. revert j.
  induction cs as [|x cs IH]; intros j Hc; [done|].
  destruct Hin as [->|Hin].
  - destruct (elems_with_dict _ _ Hgin) as (gcs & Hv & Htruthy & Hel).
    rewrite Hel in Hgin.
    destruct (dump_grandchildren_shows g t gcs 0 Hgin Hg Ht)
      as (k & nm & H).
    exists k, nm. cbn [dump_children].
    eapply in_bind_r; [done|]. apply in_bind_l.
    fold (children_of c). rewrite Htruthy, Hv. cbn [py_len py_iter].
    rewrite bind_lift_return. eapply in_bind_r; [done|].
    by rewrite bind_lift_return.
  - destruct x; cbn [dump_children] in *;
      rewrite !completes_seq in Hc;
      repeat (apply andb_true_iff in Hc as [? Hc]);
      destruct (IH Hin _ Hc) as (k & nm & Hline); exists k, nm;
      try (eapply in_bind_r; [done|]; exact Hline).
    eapply in_bind_r; [done|]. eapply in_bind_r; [|exact Hline].
    by apply completes_unit.
Qed.

Lemma dump_interfaces_shows d c g t pl i :
  In (PDict d) pl -> In (PDict c) (elems (children_of d)) ->
  In (PDict g) (elems (children_of c)) ->
  g !! "IOTTYDevice" = Some t -> py_truthy t = true ->
  completes (dump_interfaces i pl) = true ->
  exists k gc_name, In (tty_line k gc_name t) (dump_interfaces i pl).1.
Proof.
  intros Hin Hcin Hgin Hg Ht. revert i.
  induction pl as [|x pl IH]; intros i Hc; [done|].
  destruct Hin as [->|Hin].
  - cbn [dump_interfaces] in *. rewrite !completes_seq in Hc.
    apply andb_true_iff in Hc as [_ Hc].
    apply andb_true_iff in Hc as [_ Hc].
    apply andb_true_iff in Hc as [Hc _].
    destruct (elems_with_dict _ _ Hcin) as (cs & Hv & Htruthy & Hel).
    rewrite Hel in Hcin.
    assert (print_children d =
            (print [Lit (nl ++ "  Children ("); Fmt (int_of_nat (length cs));
                    Lit "):"] ;; dump_children 0 cs)) as Hpc.
    { unfold print_children. fold (children_of d). rewrite Htruthy, Hv.
      cbn [py_len py_iter]. rewrite bind_lift_return.
      by rewrite bind_lift_return. }
    rewrite Hpc in Hc. rewrite completes_seq in Hc.
    apply andb_true_iff in Hc as [_ Hc].
    destruct (dump_children_shows c g t cs 0 Hcin Hgin Hg Ht Hc)
      as (k & nm & H).
    exists k, nm.
    eapply in_bind_r; [done|].
    eapply in_bind_r; [by rewrite print_fields_lines|].
    apply in_bind_l. rewrite Hpc. by eapply in_bind_r.
  - destruct x; cbn [dump_interfaces] in *;
      rewrite !completes_seq in Hc;
      repeat (apply andb_true_iff in Hc as [? Hc]);
      destruct (IH Hin _ Hc) as (k & nm & Hline); exists k, nm;
      try (eapply in_bind_r; [done|]; exact Hline).
    eapply in_bind_r; [done|].
    eapply in_bind_r; [by apply completes_unit|].
    eapply in_bind_r; [by apply completes_unit|]. exact Hline.
Qed.

(** X8: the two modes agree: a TTY that the lookup returns for some name is
    also shown by the full dump of the same list, in a grandchild line ending
    in [(TTY: ...)], whenever the dump gets to its end. *)
Theorem found_tty_is_shown_by_the_dump
    (pl : list PLNode) (name : string) (t : PLNode) :
  find_tty_by_interface_name (PList pl) name = ([], Return t) ->
  t <> PNone ->
  forallb dumpable pl = true ->
  exists k gc_name,
    In (tty_line k gc_name t) (extract_usb_info (PList pl) None).1.
Proof.
  intros Hfind Ht Hd.
  destruct (scan_interfaces_found _ _ _ (find_tty_found _ _ _ Hfind Ht))
    as (d & c & g & Hin & _ & Hcin & Hgin & Hg & Htruthy).
  rewrite <- (completes_dump_interfaces 0) in Hd.
  destruct (dump_interfaces_shows d c g t pl 0 Hin Hcin Hgin Hg Htruthy Hd)
    as (k & nm & H).
  exists k, nm. unfold extract_usb_info, show_all.
  by eapply in_bind_r.
Qed.

Lemma found_tty_is_shown_witness :
  exists k gc_name,
    In (tty_line k gc_name (PStr "/dev/cu.usbmodem14203"))
       (extract_usb_info (PList [acm0_control; acm0_data]) None).1.
Proof.
  apply (found_tty_is_shown_by_the_dump [acm0_control; acm0_data]
           "STM32 CDC ACM0" (PStr "/dev/cu.usbmodem14203"));
    [reflexivity|discriminate|reflexivity].
Defined.

(** ** The report of an element that the dump reaches *)

Lemma bind_returned {B} (m : Run unit) (k : Run B) :
  m.2 = Return tt -> (m ;; k) = (m.1 ++ k.1, k.2).
Proof.
  destruct m as [out r]. simpl. intros ->. unfold bind. by destruct k.
Qed.

Lemma py_type_kind (v : PLNode) :
  py_type v = ("<class '" ++ kind_name (kind_of v) ++ "'>")%string.
Proof. by destruct v. Qed.

Lemma print_fields_field_lines d : print_fields d = (field_lines d, Return tt).
Proof. apply print_fields_lines. Qed.

(** The dump up to the first element behind a front part that is dumped to
    its end. *)
Lemma dump_reaches (pre rest : list PLNode) :
  forallb dumpable pre = true ->
  extract_usb_info (PList (pre ++ rest)) None =
  (found_line (length (pre ++ rest)) :: (dump_interfaces 0 pre).1 ++
   (dump_interfaces (Z.of_nat (length pre)) rest).1,
   (dump_interfaces (Z.of_nat (length pre)) rest).2).
Proof.
  intros Hpre. unfold extract_usb_info, show_all.
  fold (found_line (length (pre ++ rest))).
  rewrite dump_interfaces_app, bind_print, bind_returned.
  - by rewrite Z.add_0_l.
  - apply completes_unit. by rewrite completes_dump_interfaces.
Qed.

Lemma dump_interface_report i d post :
  dump_interfaces i (PDict d :: post) =
  (banner_line i :: field_lines d ++
   (print_children d ;; dump_interfaces (i + 1) post).1,
   (print_children d ;; dump_interfaces (i + 1) post).2).
Proof.
  cbn [dump_interfaces]. fold (banner_line i).
  rewrite bind_print, bind_returned, print_fields_field_lines; [done|].
  by rewrite print_fields_field_lines.
Qed.

Lemma print_children_of_list d c cs :
  children_of d = PList (c :: cs) ->
  print_children d =
  (print (children_line (length (c :: cs))) ;; dump_children 0 (c :: cs)).
Proof.
  intros H. unfold print_children. fold (children_of d). rewrite H.
  cbn [py_truthy py_len py_iter].
  by rewrite !bind_lift_return.
Qed.

Lemma dump_children_reaches {B} j cpre rest (k : Run B) :
  forallb dumpable_child cpre = true ->
  (dump_children j (cpre ++ rest) ;; k) =
  ((dump_children j cpre).1 ++
   (dump_children (j + Z.of_nat (length cpre)) rest ;; k).1,
   (dump_children (j + Z.of_nat (length cpre)) rest ;; k).2).
Proof.
  intros H. rewrite dump_children_app, bind_assoc.
  apply bind_returned, completes_unit.
  by rewrite completes_dump_children.
Qed.

Lemma dump_child_report {B} j c g gs cpost (k : Run B) :
  children_of c = PList (g :: gs) ->
  (dump_children j (PDict c :: cpost) ;; k) =
  (child_line j c :: grandchildren_line (length (g :: gs)) ::
   (dump_grandchildren 0 (g :: gs) ;; dump_children (j + 1) cpost ;; k).1,
   (dump_grandchildren 0 (g :: gs) ;; dump_children (j + 1) cpost ;; k).2).
Proof.
  intros H. cbn [dump_children]. fold (children_of c) (child_line j c).
  rewrite H. cbn [py_truthy py_len py_iter].
  rewrite !bind_lift_return. fold (grandchildren_line (length (g :: gs))).
  by rewrite !bind_assoc, !bind_print.
Qed.

Lemma dump_grandchildren_reaches {B} k0 gpre rest (k : Run B) :
  (dump_grandchildren k0 (gpre ++ rest) ;; k) =
  ((dump_grandchildren k0 gpre).1 ++
   (dump_grandchildren (k0 + Z.of_nat (length gpre)) rest ;; k).1,
   (dump_grandchildren (k0 + Z.of_nat (length gpre)) rest ;; k).2).
Proof.
  rewrite dump_grandchildren_app, bind_assoc.
  apply bind_returned, completes_unit, completes_dump_grandchildren.
Qed.

(** C6, as worded, fails: the line for a non-dict element is printed only
    if the dump gets that far.  Behind a dict whose
    [IORegistryEntryChildren] is the integer 5 the dump has already ended in
    the [TypeError] of [len], and the element 7 that follows is not
    reported. *)
Lemma unreached_element_is_not_reported :
  extract_usb_info (PList [PDict acm0_odd_children; PInt 7]) None =
    ([found_line 2; banner_line 0;
      [Lit "Name: "; Fmt (PStr "STM32 CDC ACM0")];
      [Lit "Class: "; Fmt (PInt 10)];
      [Lit "SubClass: "; Fmt (PStr "Unknown")];
      [Lit "Protocol: "; Fmt (PStr "Unknown")];
      [Lit "Vendor ID: "; Fmt (PStr "Unknown")];
      [Lit "Product ID: "; Fmt (PStr "Unknown")];
      [Lit "Location ID: "; Fmt (PStr "Unknown")]],
     Raise (TypeError "object of type 'int' has no len()")) /\
  ~ In (type_mismatch_line 1 KInt)
       (extract_usb_info (PList [PDict acm0_odd_children; PInt 7]) None).1.
Proof.
  split; [reflexivity|].
  vm_compute. intros H.
  repeat (destruct H as [H|H]; [discriminate H|]). exact H.
Qed.

(** C6, amended: a top-level element that is not a dict, and that the dump
    reaches (every element before it is dumped to its end), is neither
    skipped nor fatal.  After the report of the elements before it comes one
    line that gives its index, counted from 1, and its actual type in
    Python's words ([<class 'int'>] for an integer, and so on); then the
    elements after it are processed, numbered on from there, and the dump
    ends as their dump ends. *)
Theorem non_dict_element_is_reported
    (pre : list PLNode) (x : PLNode) (post : list PLNode) :
  is_dict x = false ->
  forallb dumpable pre = true ->
  let i := Z.of_nat (length pre) in
  extract_usb_info (PList (pre ++ x :: post)) None =
    (found_line (length (pre ++ x :: post)) :: (dump_interfaces 0 pre).1 ++
     type_mismatch_line i (kind_of x) :: (dump_interfaces (i + 1) post).1,
     (dump_interfaces (i + 1) post).2).
Proof.
  intros Hx Hpre i. rewrite dump_reaches by done. fold i.
  destruct x; try done; cbn [dump_interfaces]; by rewrite bind_print.
Qed.

Lemma non_dict_element_witness :
  extract_usb_info (PList ([acm0_control] ++ PInt 5 :: [PStr "x"])) None =
  ([[Lit "Found "; Fmt (PInt 3); Lit " USB interfaces"];
    [Lit (nl ++ "--- USB Interface #"); Fmt (PInt 1); Lit " ---"];
    [Lit "Name: "; Fmt (PStr "STM32 CDC ACM0")];
    [Lit "Class: "; Fmt (PInt 2)];
    [Lit "SubClass: "; Fmt (PStr "Unknown")];
    [Lit "Protocol: "; Fmt (PStr "Unknown")];
    [Lit "Vendor ID: "; Fmt (PStr "Unknown")];
    [Lit "Product ID: "; Fmt (PStr "Unknown")];
    [Lit "Location ID: "; Fmt (PStr "Unknown")];
    [Lit (nl ++ "Interface #"); Fmt (PInt 2);
     Lit " is not a dictionary, it's a "; Lit "<class 'int'>"];
    [Lit (nl ++ "Interface #"); Fmt (PInt 3);
     Lit " is not a dictionary, it's a "; Lit "<class 'str'>"]],
   Return tt).
Proof.
  refine (non_dict_element_is_reported [acm0_control] (PInt 5) [PStr "x"]
            _ _); reflexivity.
Defined.

(** C5, amended: in the full dump, the report of a dict entry that the dump
    reaches (every element before it is dumped to its end) opens with its
    banner and its field lines, whatever keys the entry has: a missing key
    raises nothing.  For an entry without the key, each of name, class,
    subclass, protocol, vendor ID, product ID and location ID is printed
    with the literal ["Unknown"]; product, vendor and serial get no line at
    all. *)
Theorem absent_fields_in_the_dump
    (pre : list PLNode) (d : gmap string PLNode) (post : list PLNode)
    (key label : string) :
  forallb dumpable pre = true ->
  d !! key = None ->
  let i := Z.of_nat (length pre) in
  extract_usb_info (PList (pre ++ PDict d :: post)) None =
    (found_line (length (pre ++ PDict d :: post)) ::
     (dump_interfaces 0 pre).1 ++
     banner_line i :: field_lines d ++
     (print_children d ;; dump_interfaces (i + 1) post).1,
     (print_children d ;; dump_interfaces (i + 1) post).2) /\
  (In (key, label) defaulted_fields ->
   In [Lit label; Fmt (PStr "Unknown")] (field_lines d)) /\
  (In (key, label) guarded_fields ->
   forall v, ~ In [Lit label; Fmt v] (field_lines d)).
Proof.
  intros Hpre Hkey i. split; [|split].
  - rewrite dump_reaches by done. fold i.
    by rewrite dump_interface_report.
  - unfold field_lines. intros Hin.
    cbn [In]. rewrite !in_app_iff. cbn [In]. unfold defaulted_line, dict_get.
    simpl in Hin.
    repeat (destruct Hin as [[= <- <-]|Hin]; [rewrite Hkey; tauto|]).
    destruct Hin.
  - unfold field_lines. intros Hin v H.
    unfold guarded_line, defaulted_line in H. simpl in Hin.
    repeat (destruct Hin as [[= <- <-]|Hin];
      [rewrite Hkey in H;
       repeat match type of H with
              | context [match ?o with Some _ => _ | None => _ end] =>
                  destruct o
              end;
       simpl in H;
       repeat (destruct H as [H|H]; [discriminate H|]); exact H|]).
    destruct Hin.
Qed.

Lemma absent_fields_witness :
  extract_usb_info
    (PList ([PInt 5] ++ PDict acm0_control_fields :: [])) None =
  ([[Lit "Found "; Fmt (PInt 2); Lit " USB interfaces"];
    [Lit (nl ++ "Interface #"); Fmt (PInt 1);
     Lit " is not a dictionary, it's a "; Lit "<class 'int'>"];
    [Lit (nl ++ "--- USB Interface #"); Fmt (PInt 2); Lit " ---"];
    [Lit "Name: "; Fmt (PStr "STM32 CDC ACM0")];
    [Lit "Class: "; Fmt (PInt 2)];
    [Lit "SubClass: "; Fmt (PStr "Unknown")];
    [Lit "Protocol: "; Fmt (PStr "Unknown")];
    [Lit "Vendor ID: "; Fmt (PStr "Unknown")];
    [Lit "Product ID: "; Fmt (PStr "Unknown")];
    [Lit "Location ID: "; Fmt (PStr "Unknown")]], Return tt) /\
  In [Lit "Vendor ID: "; Fmt (PStr "Unknown")]
     (field_lines acm0_control_fields) /\
  (forall v, ~ In [Lit "Product: "; Fmt v] (field_lines acm0_control_fields)).
Proof.
  split; [|split].
  - refine (proj1 (absent_fields_in_the_dump [PInt 5] acm0_control_fields []
                     "idVendor" "Vendor ID: " _ _)); reflexivity.
  - refine (proj1 (proj2 (absent_fields_in_the_dump [PInt 5]
                            acm0_control_fields [] "idVendor" "Vendor ID: "
                            _ _)) _); [reflexivity|reflexivity|].
    simpl. tauto.
  - refine (proj2 (proj2 (absent_fields_in_the_dump [PInt 5]
                            acm0_control_fields [] "USB Product Name"
                            "Product: " _ _)) _); [reflexivity|reflexivity|].
    simpl. tauto.
Defined.

(** C10, as worded, fails for the child: its line is printed only if the
    dump gets that far.  When the child before it holds the integer 5 under
    [IORegistryEntryChildren], the dump ends in the [TypeError] of [len]
    there and the non-dict child 7 behind it gets no line. *)
Lemma unreached_child_is_not_reported :
  extract_usb_info
    (PList [dict [("IORegistryEntryChildren",
                   PList [PDict odd_grandchildren; PInt 7])]]) None =
    ([found_line 1; banner_line 0;
      [Lit "Name: "; Fmt (PStr "Unknown")];
      [Lit "Class: "; Fmt (PStr "Unknown")];
      [Lit "SubClass: "; Fmt (PStr "Unknown")];
      [Lit "Protocol: "; Fmt (PStr "Unknown")];
      [Lit "Vendor ID: "; Fmt (PStr "Unknown")];
      [Lit "Product ID: "; Fmt (PStr "Unknown")];
      [Lit "Location ID: "; Fmt (PStr "Unknown")];
      children_line 2;
      [Lit "  - Child #"; Fmt (PInt 1); Lit ": "; Fmt (PStr "Unknown");
       Lit " (Class: "; Fmt (PStr "Unknown"); Lit ")"]],
     Raise (TypeError "object of type 'int' has no len()")) /\
  ~ In (child_not_a_dict_line 1)
       (extract_usb_info
          (PList [dict [("IORegistryEntryChildren",
                         PList [PDict odd_grandchildren; PInt 7])]]) None).1.
Proof.
  split; [reflexivity|].
  vm_compute. intros H.
  repeat (destruct H as [H|H]; [discriminate H|]). exact H.
Qed.

(** C10, amended: in the full dump the malformed elements below the top
    level are treated otherwise than at the top.  In the report of an
    interface that the dump reaches, a child that is not a dict and that the
    dump reaches (the children before it are dumped to their end) gets one
    line with its index, counted from 1, and no word about what it is, and
    the children after it are processed; a grandchild that is not a dict
    gets no line at all: the lines of the grandchildren before it are
    followed at once by those of the grandchildren after it, whose numbers
    skip it. *)
Theorem non_dict_child_and_grandchild
    (pre post : list PLNode) (d c : gmap string PLNode)
    (cpre cpost gpre gpost : list PLNode) (x : PLNode) :
  is_dict x = false ->
  forallb dumpable pre = true ->
  forallb dumpable_child cpre = true ->
  let i := Z.of_nat (length pre) in
  let j := Z.of_nat (length cpre) in
  let k := Z.of_nat (length gpre) in
  (children_of d = PList (cpre ++ x :: cpost) ->
   extract_usb_info (PList (pre ++ PDict d :: post)) None =
     (found_line (length (pre ++ PDict d :: post)) ::
      (dump_interfaces 0 pre).1 ++
      banner_line i :: field_lines d ++
      children_line (length (cpre ++ x :: cpost)) ::
      (dump_children 0 cpre).1 ++
      child_not_a_dict_line j ::
      (dump_children (j + 1) cpost ;; dump_interfaces (i + 1) post).1,
      (dump_children (j + 1) cpost ;; dump_interfaces (i + 1) post).2)) /\
  (children_of d = PList (cpre ++ PDict c :: cpost) ->
   children_of c = PList (gpre ++ x :: gpost) ->
   extract_usb_info (PList (pre ++ PDict d :: post)) None =
     (found_line (length (pre ++ PDict d :: post)) ::
      (dump_interfaces 0 pre).1 ++
      banner_line i :: field_lines d ++
      children_line (length (cpre ++ PDict c :: cpost)) ::
      (dump_children 0 cpre).1 ++
      child_line j c ::
      grandchildren_line (length (gpre ++ x :: gpost)) ::
      (dump_grandchildren 0 gpre).1 ++
      (dump_grandchildren (k + 1) gpost ;;
       dump_children (j + 1) cpost ;; dump_interfaces (i + 1) post).1,
      (dump_grandchildren (k + 1) gpost ;;
       dump_children (j + 1) cpost ;; dump_interfaces (i + 1) post).2)).
Proof.
  intros Hx Hpre Hcpre i j k. split.
  - intros Hd. rewrite dump_reaches by done. fold i.
    rewrite dump_interface_report.
    assert (exists c0 cs0, cpre ++ x :: cpost = c0 :: cs0) as (c0 & cs0 & Hcs)
      by (destruct cpre; simpl; eauto).
    rewrite Hcs in Hd. rewrite (print_children_of_list _ _ _ Hd), <- Hcs.
    rewrite bind_assoc, bind_print. cbn [fst snd].
    rewrite dump_children_reaches by done. cbn [fst snd].
    rewrite Z.add_0_l. fold j.
    destruct x; try done; cbn [dump_children];
      fold (child_not_a_dict_line j); by rewrite bind_assoc, bind_print.
  - intros Hd Hc. rewrite dump_reaches by done. fold i.
    rewrite dump_interface_report.
    assert (exists c0 cs0, cpre ++ PDict c :: cpost = c0 :: cs0)
      as (c0 & cs0 & Hcs) by (destruct cpre; simpl; eauto).
    rewrite Hcs in Hd. rewrite (print_children_of_list _ _ _ Hd), <- Hcs.
    rewrite bind_assoc, bind_print. cbn [fst snd].
    rewrite dump_children_reaches by done. cbn [fst snd].
    rewrite Z.add_0_l. fold j.
    assert (exists g0 gs0, gpre ++ x :: gpost = g0 :: gs0) as (g0 & gs0 & Hgs)
      by (destruct gpre; simpl; eauto).
    rewrite Hgs in Hc. rewrite (dump_child_report _ _ _ _ _ _ Hc), <- Hgs.
    cbn [fst snd]. rewrite dump_grandchildren_reaches. cbn [fst snd].
    rewrite Z.add_0_l. fold k.
    by destruct x.
Qed.

Lemma non_dict_child_and_grandchild_witness :
  extract_usb_info (PList ([PInt 3] ++ PDict hub :: [PStr "x"])) None =
  ([[Lit "Found "; Fmt (PInt 3); Lit " USB interfaces"];
    [Lit (nl ++ "Interface #"); Fmt (PInt 1);
     Lit " is not a dictionary, it's a "; Lit "<class 'int'>"];
    [Lit (nl ++ "--- USB Interface #"); Fmt (PInt 2); Lit " ---"];
    [Lit "Name: "; Fmt (PStr "Hub")];
    [Lit "Class: "; Fmt (PStr "Unknown")];
    [Lit "SubClass: "; Fmt (PStr "Unknown")];
    [Lit "Protocol: "; Fmt (PStr "Unknown")];
    [Lit "Vendor ID: "; Fmt (PStr "Unknown")];
    [Lit "Product ID: "; Fmt (PStr "Unknown")];
    [Lit "Location ID: "; Fmt (PStr "Unknown")];
    [Lit (nl ++ "  Children ("); Fmt (PInt 3); Lit "):"];
    [Lit "  - Child #"; Fmt (PInt 1); Lit ": "; Fmt (PStr "Unknown");
     Lit " (Class: "; Fmt (PStr "Unknown"); Lit ")"];
    [Lit "  Child #"; Fmt (PInt 2); Lit " is not a dictionary"];
    [Lit "  - Child #"; Fmt (PInt 3); Lit ": "; Fmt (PStr "Unknown");
     Lit " (Class: "; Fmt (PStr "Unknown"); Lit ")"];
    [Lit "    Grandchildren ("; Fmt (PInt 5); Lit "):"];
    [Lit "    - #"; Fmt (PInt 2); Lit ": "; Fmt (PStr "idle")];
    [Lit "    - #"; Fmt (PInt 3); Lit ": "; Fmt (PStr "Unknown");
     Lit " (TTY: "; Fmt (PStr "/dev/cu.first"); Lit ")"];
    [Lit "    - #"; Fmt (PInt 4); Lit ": "; Fmt (PStr "Unknown");
     Lit " (TTY: "; Fmt (PStr "/dev/cu.second"); Lit ")"];
    [Lit (nl ++ "Interface #"); Fmt (PInt 3);
     Lit " is not a dictionary, it's a "; Lit "<class 'str'>"]],
   Return tt) /\
  extract_usb_info (PList ([] ++ PDict hub :: [])) None =
  ([[Lit "Found "; Fmt (PInt 1); Lit " USB interfaces"];
    [Lit (nl ++ "--- USB Interface #"); Fmt (PInt 1); Lit " ---"];
    [Lit "Name: "; Fmt (PStr "Hub")];
    [Lit "Class: "; Fmt (PStr "Unknown")];
    [Lit "SubClass: "; Fmt (PStr "Unknown")];
    [Lit "Protocol: "; Fmt (PStr "Unknown")];
    [Lit "Vendor ID: "; Fmt (PStr "Unknown")];
    [Lit "Product ID: "; Fmt (PStr "Unknown")];
    [Lit "Location ID: "; Fmt (PStr "Unknown")];
    [Lit (nl ++ "  Children ("); Fmt (PInt 3); Lit "):"];
    [Lit "  - Child #"; Fmt (PInt 1); Lit ": "; Fmt (PStr "Unknown");
     Lit " (Class: "; Fmt (PStr "Unknown"); Lit ")"];
    [Lit "  Child #"; Fmt (PInt 2); Lit " is not a dictionary"];
    [Lit "  - Child #"; Fmt (PInt 3); Lit ": "; Fmt (PStr "Unknown");
     Lit " (Class: "; Fmt (PStr "Unknown"); Lit ")"];
    [Lit "    Grandchildren ("; Fmt (PInt 5); Lit "):"];
    [Lit "    - #"; Fmt (PInt 2); Lit ": "; Fmt (PStr "idle")];
    [Lit "    - #"; Fmt (PInt 3); Lit ": "; Fmt (PStr "Unknown");
     Lit " (TTY: "; Fmt (PStr "/dev/cu.first"); Lit ")"];
    [Lit "    - #"; Fmt (PInt 4); Lit ": "; Fmt (PStr "Unknown");
     Lit " (TTY: "; Fmt (PStr "/dev/cu.second"); Lit ")"]],
   Return tt).
Proof.
  split.
  - refine (proj1 (non_dict_child_and_grandchild [PInt 3] [PStr "x"] hub
                     two_ports [PDict (tty_node "/dev/cu.first")]
                     [PDict two_ports] [] [] (PInt 7) _ _ _) _);
      reflexivity.
  - refine (proj2 (non_dict_child_and_grandchild [] [] hub two_ports
                     [PDict (tty_node "/dev/cu.first"); PInt 7] []
                     [PInt 7; dict [("IORegistryEntryName", PStr "idle")];
                      PDict (tty_node "/dev/cu.first");
                      PDict (tty_node "/dev/cu.second")] [] (PInt 5)
                     _ _ _) _ _); reflexivity.
Defined.

(** ** The lookup mode of [extract_usb_info] *)

(** X9: with a non-empty target name [extract_usb_info] prints no part of
    the dump.  It prints exactly one line: the TTY line, with the non-empty
    value that [find_tty_by_interface_name] returned, or the not-found line
    when that returned [None]; or nothing at all when the scan ended in an
    exception, which is passed on. *)
Theorem lookup_prints_one_line (l : list PLNode) (n : string) :
  n <> "" ->
  (exists t, find_tty_by_interface_name (PList l) n = ([], Return t) /\
             py_truthy t = true /\
             extract_usb_info (PList l) (Some n) =
               ([tty_found_line n t], Return tt)) \/
  (find_tty_by_interface_name (PList l) n = ([], Return PNone) /\
   extract_usb_info (PList l) (Some n) =
     ([tty_not_found_line n], Return tt)) \/
  (exists e, find_tty_by_interface_name (PList l) n = ([], Raise e) /\
             extract_usb_info (PList l) (Some n) = ([], Raise e)).
Proof.
  intros Hn. unfold extract_usb_info, show_tty.
  destruct n as [|a n]; [done|]. cbn [py_truthy].
  unfold find_tty_by_interface_name.
  destruct (scan_interfaces (String a n) l) as [[t|]|e] eqn:E.
  - left. exists t. apply scan_interfaces_truthy in E.
    repeat split; [done|]. rewrite bind_ret_l. by rewrite E.
  - right. left. split; [done|]. by rewrite bind_ret_l.
  - right. right. by exists e.
Qed.

Lemma lookup_prints_one_line_witness :
  (exists t, find_tty_by_interface_name (PList [acm0_control; acm0_data])
               "STM32 CDC ACM0" = ([], Return t) /\
             py_truthy t = true /\
             extract_usb_info (PList [acm0_control; acm0_data])
               (Some "STM32 CDC ACM0") =
               ([tty_found_line "STM32 CDC ACM0" t], Return tt)) \/
  (find_tty_by_interface_name (PList [acm0_control; acm0_data])
     "STM32 CDC ACM0" = ([], Return PNone) /\
   extract_usb_info (PList [acm0_control; acm0_data])
     (Some "STM32 CDC ACM0") =
     ([tty_not_found_line "STM32 CDC ACM0"], Return tt)) \/
  (exists e, find_tty_by_interface_name (PList [acm0_control; acm0_data])
               "STM32 CDC ACM0" = ([], Raise e) /\
             extract_usb_info (PList [acm0_control; acm0_data])
               (Some "STM32 CDC ACM0") = ([], Raise e)).
Proof.
  apply (lookup_prints_one_line [acm0_control; acm0_data] "STM32 CDC ACM0").
  discriminate.
Defined.

(** ** [main] and its source of data *)

Lemma acquire_source w args :
  acquire w args =
  (source_line args ::
     match source w args with
     | inl _ => []
     | inr e => [source_error_line args e]
     end,
   Return match source w args with
          | inl pl => pl
          | inr _ => PList []
          end).
Proof.
  unfold acquire, source, source_line, source_error_line, from_file,
    load_from_file, get_usb_interfaces.
  destruct (debug args) as [path|]; [destruct (py_truthy (PStr path))|];
    rewrite bind_print;
    try (by destruct (file w path)); by destruct (ioreg w).
Qed.

(** X10: when the source of the data fails (the [ioreg] call, or the load
    of the [--debug] file), [main] does not fail: it prints where it looked,
    the error, and ["No data to process"], and returns, whatever else is on
    the command line. *)
Theorem failed_source_is_no_data (w : World) (args : Args) (e : string) :
  source w args = inr e ->
  main w args =
  ([source_line args; source_error_line args e; no_data_line], Return tt).
Proof.
  intros H. unfold main. rewrite acquire_source, H. reflexivity.
Qed.

Lemma failed_source_witness :
  main attached {| interface_name := None; list_flag := true;
                   debug := Some "usbio.xml" |} =
  ([[Lit "Loading from file: "; Fmt (PStr "usbio.xml")];
    [Lit "Error loading file "; Fmt (PStr "usbio.xml"); Lit ": ";
     Fmt (PStr "[Errno 2] No such file or directory")];
    no_data_line], Return tt).
Proof.
  apply (failed_source_is_no_data attached
           {| interface_name := None; list_flag := true;
              debug := Some "usbio.xml" |}).
  reflexivity.
Defined.

(** X11: data that is empty in Python's sense (an empty list, an empty
    dict, an empty string, zero, [None], ...) never reaches
    [extract_usb_info]: [main] prints ["No data to process"] and returns, so
    the line ["Found 0 USB interfaces"] is never printed by [main]. *)
Theorem falsy_data_is_no_data (w : World) (args : Args) (pl : PLNode) :
  source w args = inl pl ->
  py_truthy pl = false ->
  main w args = ([source_line args; no_data_line], Return tt).
Proof.
  intros H Hpl. unfold main. rewrite acquire_source, H.
  unfold bind. by rewrite Hpl.
Qed.

Lemma falsy_data_witness :
  main {| ioreg := inl (PList []); file := fun _ => inr "unused" |}
       {| interface_name := Some "STM32 CDC ACM0"; list_flag := false;
          debug := None |} =
  ([[Lit "Getting data from ioreg command"]; no_data_line], Return tt).
Proof.
  apply (falsy_data_is_no_data
           {| ioreg := inl (PList []); file := fun _ => inr "unused" |}
           {| interface_name := Some "STM32 CDC ACM0"; list_flag := false;
              debug := None |} (PList [])); reflexivity.
Defined.

(** X12: data whose top-level value is not a list but is not empty either
    (a dict at the root of the file, say) gets the "expected list"
    diagnostic from [main], with or without [--list], with or without a
    name, and nothing else. *)
Theorem non_list_root_is_diagnosed (w : World) (args : Args) (pl : PLNode) :
  source w args = inl pl ->
  is_list pl = false ->
  py_truthy pl = true ->
  main w args = ([source_line args; expected_list], Return tt).
Proof.
  intros H Hl Hpl. unfold main. rewrite acquire_source, H.
  unfold bind. rewrite Hpl. cbn [negb].
  destruct pl; try done;
    by destruct (list_flag args || negb (given (interface_name args))),
         (interface_name args).
Qed.

Lemma non_list_root_witness :
  main {| ioreg := inr "unused"; file := fun _ => inl acm0_data |}
       {| interface_name := Some "STM32 CDC ACM0"; list_flag := false;
          debug := Some "one.plist" |} =
  ([[Lit "Loading from file: "; Fmt (PStr "one.plist")]; expected_list],
   Return tt).
Proof.
  apply (non_list_root_is_diagnosed
           {| ioreg := inr "unused"; file := fun _ => inl acm0_data |}
           {| interface_name := Some "STM32 CDC ACM0"; list_flag := false;
              debug := Some "one.plist" |} acm0_data); reflexivity.
Defined.

(** X16: the lookup from the command line, end to end: without [--list],
    with a non-empty name and a non-empty list as data, [main] prints where
    the data came from and then exactly one line, the TTY line when the scan
    returned a value and the not-found line when it returned [None]. *)
Theorem main_lookup_end_to_end
    (w : World) (args : Args) (l : list PLNode) (n : string) (t : PLNode) :
  source w args = inl (PList l) ->
  l <> [] ->
  list_flag args = false ->
  interface_name args = Some n ->
  n <> "" ->
  find_tty_by_interface_name (PList l) n = ([], Return t) ->
  main w args =
  ([source_line args;
    if py_truthy t then tty_found_line n t else tty_not_found_line n],
   Return tt).
Proof.
  intros Hsrc Hl Hlist Hname Hn Hfind.
  unfold main. rewrite acquire_source, Hsrc, Hlist, Hname.
  destruct l as [|x l]; [done|]. destruct n as [|a n]; [done|].
  unfold bind at 1. cbn [py_truthy negb given orb].
  unfold extract_usb_info, show_tty. cbn [py_truthy].
  rewrite Hfind. unfold bind.
  by destruct (py_truthy t).
Qed.

Lemma main_lookup_witness :
  main attached {| interface_name := Some "STM32 CDC ACM0";
                   list_flag := false; debug := None |} =
  ([[Lit "Getting data from ioreg command"];
    tty_found_line "STM32 CDC ACM0" (PStr "/dev/cu.usbmodem14203")],
   Return tt).
Proof.
  apply (main_lookup_end_to_end attached
           {| interface_name := Some "STM32 CDC ACM0";
              list_flag := false; debug := None |}
           [acm0_control; acm0_data] "STM32 CDC ACM0"
           (PStr "/dev/cu.usbmodem14203"));
    solve [reflexivity | discriminate].
Defined.

(** ** [--list] and the name *)

(** C7, as worded, fails: [--list] does not always bring the full dump.
    With no interface attached the list that [ioreg] gives is empty, and
    [main] stops at ["No data to process"]; the dump of that list, the line
    ["Found 0 USB interfaces"], is not printed. *)
Lemma list_flag_without_data_dumps_nothing :
  main nothing_attached list_and_name =
    ([[Lit "Getting data from ioreg command"]; [Lit "No data to process"]],
     Return tt) /\
  extract_usb_info (PList []) None =
    ([[Lit "Found "; Fmt (PInt 0); Lit " USB interfaces"]], Return tt).
Proof. split; reflexivity. Qed.

(** C7, amended: when there is data to process (the source answered with a
    value that is not empty), [--list] makes [main] print, after the line
    that names the source, exactly what [extract_usb_info] prints without a
    target name, whatever name is on the command line: for a list, the line
    ["Found n USB interfaces"] and the report of its elements.  Without
    [--list] and with a non-empty name, what follows the source line is what
    [extract_usb_info] prints for that name.  A line of the name-based
    resolution (["TTY device for ..."] or ["No TTY device found ..."]) is
    printed only when [--list] is absent and a name is given. *)
Theorem list_flag_takes_precedence
    (w : World) (args : Args) (pl : PLNode) :
  source w args = inl pl ->
  py_truthy pl = true ->
  (list_flag args = true ->
   main w args =
     (source_line args :: (extract_usb_info pl None).1,
      (extract_usb_info pl None).2) /\
   forall l, pl = PList l ->
     main w args =
       (source_line args :: found_line (length l) ::
        (dump_interfaces 0 l).1, (dump_interfaces 0 l).2)) /\
  (forall n, list_flag args = false -> interface_name args = Some n ->
     n <> "" ->
     main w args =
       (source_line args :: (extract_usb_info pl (Some n)).1,
        (extract_usb_info pl (Some n)).2)) /\
  (forall l, In l (main w args).1 -> lookup_line l = true ->
     list_flag args = false /\ given (interface_name args) = true).
Proof.
  intros Hsrc Hpl.
  assert (forall target,
    (pl' <- acquire w args ;;
     if negb (py_truthy pl') then print no_data_line
     else extract_usb_info pl' target) =
    (source_line args :: (extract_usb_info pl target).1,
     (extract_usb_info pl target).2)) as Hrun.
  { intros target. rewrite acquire_source, Hsrc. unfold bind.
    rewrite Hpl. cbn [negb]. by destruct (extract_usb_info pl target). }
  destruct (main_dispatch w args) as (Hlist & _ & Hname & Hlookup).
  split; [|split; [|exact Hlookup]].
  - intros Hl. rewrite (Hlist Hl). unfold full_dump_run.
    split; [apply Hrun|].
    intros l ->. rewrite Hrun. unfold extract_usb_info, show_all.
    fold (found_line (length l)). by rewrite bind_print.
  - intros n Hl Hn Hne. rewrite (Hname n Hl Hn Hne). apply Hrun.
Qed.

Lemma list_flag_witness :
  main attached list_and_name =
  ([[Lit "Getting data from ioreg command"];
    [Lit "Found "; Fmt (PInt 2); Lit " USB interfaces"];
    [Lit (nl ++ "--- USB Interface #"); Fmt (PInt 1); Lit " ---"];
    [Lit "Name: "; Fmt (PStr "STM32 CDC ACM0")];
    [Lit "Class: "; Fmt (PInt 2)];
    [Lit "SubClass: "; Fmt (PStr "Unknown")];
    [Lit "Protocol: "; Fmt (PStr "Unknown")];
    [Lit "Vendor ID: "; Fmt (PStr "Unknown")];
    [Lit "Product ID: "; Fmt (PStr "Unknown")];
    [Lit "Location ID: "; Fmt (PStr "Unknown")];
    [Lit (nl ++ "--- USB Interface #"); Fmt (PInt 2); Lit " ---"];
    [Lit "Name: "; Fmt (PStr "STM32 CDC ACM0")];
    [Lit "Class: "; Fmt (PInt 10)];
    [Lit "SubClass: "; Fmt (PStr "Unknown")];
    [Lit "Protocol: "; Fmt (PStr "Unknown")];
    [Lit "Vendor ID: "; Fmt (PStr "Unknown")];
    [Lit "Product ID: "; Fmt (PStr "Unknown")];
    [Lit "Location ID: "; Fmt (PStr "Unknown")];
    [Lit (nl ++ "  Children ("); Fmt (PInt 1); Lit "):"];
    [Lit "  - Child #"; Fmt (PInt 1); Lit ": "; Fmt (PStr "Unknown");
     Lit " (Class: "; Fmt (PStr "Unknown"); Lit ")"];
    [Lit "    Grandchildren ("; Fmt (PInt 1); Lit "):"];
    [Lit "    - #"; Fmt (PInt 1); Lit ": "; Fmt (PStr "Unknown");
     Lit " (TTY: "; Fmt (PStr "/dev/cu.usbmodem14203"); Lit ")"]],
   Return tt).
Proof.
  refine (proj1 (proj1 (list_flag_takes_precedence attached list_and_name
                          (PList [acm0_control; acm0_data]) _ _) _));
    reflexivity.
Defined.

(** ** The keys that the scan reads *)

(** X17: of an interface the scan reads three keys only, its name, its
    class and its children: two lists whose dict entries agree on these
    three give the same run, whatever their other keys hold. *)
Theorem scan_reads_three_keys (pl1 pl2 : list PLNode) (name : string) :
  Forall2 same_where_read pl1 pl2 ->
  find_tty_by_interface_name (PList pl1) name =
  find_tty_by_interface_name (PList pl2) name.
Proof.
  intros H. unfold find_tty_by_interface_name.
  assert (scan_interfaces name pl1 = scan_interfaces name pl2) as ->; [|done].
  induction H as [|x y l1 l2 Hxy _ IH]; [done|].
  destruct Hxy as [->|(d1 & d2 & -> & -> & Hn & Hc & Hch)].
  - change (y :: ?l) with ([y] ++ l).
    by rewrite !scan_interfaces_app, IH.
  - cbn [scan_interfaces]. unfold scan_interface, dict_get.
    by rewrite Hn, Hc, Hch, IH.
Qed.

Lemma scan_reads_three_keys_witness :
  find_tty_by_interface_name
    (PList [PDict acm0_data_fields]) "STM32 CDC ACM0" =
  find_tty_by_interface_name
    (PList [PDict (<["idVendor" := PInt 1155]> acm0_data_fields)])
    "STM32 CDC ACM0".
Proof.
  apply scan_reads_three_keys.
  constructor; [|constructor].
  right. exists acm0_data_fields, (<["idVendor" := PInt 1155]> acm0_data_fields).
  repeat split; by rewrite lookup_insert_ne.
Defined.

(** ** [traverse_plist] *)

Import Traverse.

(** Induction over a tree, the subtrees of a dict and of a list at hand. *)
Lemma tree_induction (P : Tree -> Prop) :
  (forall items, Forall (fun kv : string * Tree => P kv.2) items ->
                 P (Dict items)) ->
  (forall l, Forall P l -> P (Items l)) ->
  (forall v, P (Leaf v)) ->
  forall t, P t.
Proof.
  intros P_dict P_items P_leaf. fix IH 1. intros [items|l|v].
  - apply P_dict. induction items as [|[key value] rest IHrest].
    + constructor.
    + constructor; [apply IH|exact IHrest].
  - apply P_items. induction l as [|t rest IHrest].
    + constructor.
    + constructor; [apply IH|exact IHrest].
  - apply P_leaf.
Qed.

Lemma shifted_bind {A B} k (m : Run A) (f : A -> Run B) :
  shifted k (x <- m ;; f x) = (x <- shifted k m ;; shifted k (f x)).
Proof.
  destruct m as [out [a|e]]; unfold shifted; simpl; [|done].
  destruct (f a) as [out' r]. simpl. by rewrite map_app.
Qed.

Lemma indent_add k n : indent (k + n) = (indent k ++ indent n)%string.
Proof. induction k as [|k IH]; [done|]. simpl. by rewrite IH. Qed.

Lemma for_each_shifted {A} k (body body' : A -> Run unit) xs :
  Forall (fun x => body' x = shifted k (body x)) xs ->
  for_each body' xs = shifted k (for_each body xs).
Proof.
  induction 1 as [|x xs Hx _ IH]; [done|].
  cbn [for_each]. by rewrite shifted_bind, Hx, IH.
Qed.

Lemma for_each_indexed_shifted {A} k (body body' : Z -> A -> Run unit) i xs :
  Forall (fun x => forall j, body' j x = shifted k (body j x)) xs ->
  for_each_indexed body' i xs = shifted k (for_each_indexed body i xs).
Proof.
  intros H. revert i. induction H as [|x xs Hx _ IH]; intros i; [done|].
  cbn [for_each_indexed]. by rewrite shifted_bind, Hx, IH.
Qed.

(** X13: the level only moves the output to the right: what
    [traverse_plist] prints at level [k + n] is what it prints at level [n],
    line by line, with [k] more units of indentation in front of each. *)
Theorem traverse_level_shift (pl : Tree) (k n : nat) :
  traverse_plist pl (k + n) =
  (map (deeper k) (traverse_plist pl n).1, (traverse_plist pl n).2).
Proof.
  change (traverse_plist pl (k + n) = shifted k (traverse_plist pl n)).
  revert n. induction pl as [items IH|l IH|v] using tree_induction; intros n.
  - cbn [traverse_plist]. apply for_each_shifted.
    eapply Forall_impl; [exact IH|].
    intros [key value] Hv. cbn [snd] in Hv.
    destruct value;
      rewrite ?shifted_bind, <- ?(Hv (S n)), <- ?plus_n_Sm;
      unfold shifted; simpl; by rewrite indent_add.
  - cbn [traverse_plist].
    rewrite shifted_bind,
      (for_each_indexed_shifted k
         (fun i item =>
            print [Fmt (PStr (indent n)); Lit "Item "; Fmt (PInt (i + 1));
                   Lit ":"] ;;
            traverse_plist item (S n))).
    + unfold shifted at 1. simpl. by rewrite indent_add.
    + eapply Forall_impl; [exact IH|].
      intros item Hitem j.
      rewrite shifted_bind, <- (Hitem (S n)), <- plus_n_Sm.
      unfold shifted. simpl. by rewrite indent_add.
  - unfold shifted. simpl. by rewrite indent_add.
Qed.

Lemma within_bind lo hi (m m' : Run unit) :
  within lo hi m -> within lo hi m' -> within lo hi (m ;; m').
Proof.
  intros [Hr Hl] [Hr' Hl']. unfold within.
  rewrite bind_status, bind_output, Hr. split; [done|].
  by apply Forall_app.
Qed.

Lemma within_print lo hi j rest :
  (lo <= j <= hi)%nat ->
  within lo hi (print (Fmt (PStr (indent j)) :: rest)).
Proof.
  intros Hj. split; [done|]. repeat constructor.
  exists j. split; [by exists rest|done].
Qed.

Lemma within_mono lo hi lo' hi' m :
  (lo <= lo')%nat -> (hi' <= hi)%nat -> within lo' hi' m -> within lo hi m.
Proof.
  intros Hlo Hhi [Hr Hl]. split; [done|].
  eapply Forall_impl; [exact Hl|].
  intros l (j & Hp & Hj). exists j. split; [done|lia].
Qed.

Lemma within_for_each {A} lo hi (body : A -> Run unit) xs :
  Forall (fun x => within lo hi (body x)) xs ->
  within lo hi (for_each body xs).
Proof.
  induction 1 as [|x xs Hx _ IH]; [by split|].
  cbn [for_each]. by apply within_bind.
Qed.

Lemma within_for_each_indexed {A} lo hi (body : Z -> A -> Run unit) i xs :
  Forall (fun x => forall j, within lo hi (body j x)) xs ->
  within lo hi (for_each_indexed body i xs).
Proof.
  intros H. revert i. induction H as [|x xs Hx _ IH]; intros i; [by split|].
  cbn [for_each_indexed]. by apply within_bind.
Qed.

Lemma le_list_max (x : nat) (l : list nat) :
  In x l -> (x <= list_max l)%nat.
Proof.
  induction l as [|y l IH]; [done|].
  cbn [list_max fold_right]. intros [->|Hin]; [lia|].
  specialize (IH Hin). unfold list_max in IH. lia.
Qed.

(** X14: [traverse_plist] never prints to the left of the level it is
    given nor deeper than the tree goes: every line it prints starts with
    the indentation of a level between [level] and [level + depth pl]. *)
Theorem traverse_stays_within_its_levels (pl : Tree) (level : nat) :
  Forall (fun l => exists j, printed_at j l /\
                             (level <= j <= level + depth pl)%nat)
         (traverse_plist pl level).1.
Proof.
  enough (within level (level + depth pl) (traverse_plist pl level)) as H
    by apply H.
  revert level.
  induction pl as [items IH|l IH|v] using tree_induction; intros level.
  - cbn [traverse_plist]. apply within_for_each.
    rewrite Forall_forall in IH. apply Forall_forall.
    intros [key value] Hin. specialize (IH _ Hin (S level)). cbn [snd] in IH.
    assert (In (match value with Leaf _ => O | _ => S (depth value) end)
              (map (fun '(_, value) =>
                      match value with Leaf _ => O | _ => S (depth value) end)
                   items)) as Hd.
    { apply in_map_iff. exists (key, value).
      split; [done|by apply list_elem_of_In]. }
    apply le_list_max in Hd. cbn [depth].
    destruct value;
      try (apply within_bind;
           [apply within_print; lia|eapply within_mono; [| |exact IH]; lia]).
    apply within_print. lia.
  - cbn [traverse_plist]. apply within_bind; [apply within_print; lia|].
    apply within_for_each_indexed.
    rewrite Forall_forall in IH. apply Forall_forall.
    intros item Hin j. specialize (IH _ Hin (S level)).
    assert (In (S (depth item)) (map (fun item => S (depth item)) l)) as Hd.
    { apply in_map_iff. exists item. split; [done|by apply list_elem_of_In]. }
    apply le_list_max in Hd. cbn [depth].
    apply within_bind; [apply within_print; lia|].
    eapply within_mono; [| |exact IH]; lia.
  - apply within_print. cbn [depth]. lia.
Qed.

(** X15: a dict whose values are all scalars is printed one line per item,
    in the order of the items: indentation, key, [": "], value. *)
Theorem traverse_flat_dict (kvs : list (string * Scalar)) (level : nat) :
  traverse_plist (Dict (map leaf_item kvs)) level =
  (map (leaf_line level) kvs, Return tt).
Proof.
  cbn [traverse_plist].
  induction kvs as [|[key v] kvs IH]; [done|].
  cbn [map for_each leaf_item fst snd]. rewrite IH.
  by rewrite bind_print.
Qed.

Example traverse_nested :
  traverse_plist
    (Items [Dict [("name", Leaf (Str "ACM0")); ("children", Items [])];
            Leaf (Int 5)]) 0 =
  ([[Fmt (PStr ""); Lit "List with "; Fmt (PInt 2); Lit " items:"];
    [Fmt (PStr ""); Lit "Item "; Fmt (PInt 1); Lit ":"];
    [Fmt (PStr "  "); Fmt (PStr "name"); Lit ": "; Fmt (PStr "ACM0")];
    [Fmt (PStr "  "); Fmt (PStr "children"); Lit ":"];
    [Fmt (PStr "    "); Lit "List with "; Fmt (PInt 0); Lit " items:"];
    [Fmt (PStr ""); Lit "Item "; Fmt (PInt 2); Lit ":"];
    [Fmt (PStr "  "); Fmt (PInt 5)]], Return tt).
Proof. reflexivity. Qed.
